(* ===== verification/_CoqProject ===== *)
-Q . S2P
Prelude.v
PyStr.v
RangeParser.v
LineRegex.v
CpuTopology.v
CpuFallback.v
CpuMethod.v
Host.v
MemInfo.v
Hugepages.v
NodeOperator.v
PciDevice.v
