(* ===== verification/Prelude.v ===== *)
(** * Verification of the inventory agent's NUMA node scanner

    The program is src/inventory/inventory/inventory/agent/node.py
    (Python 2.7, StarlingX inventory agent).  Its class [NodeOperator]
    scans the host's CPU topology from /proc/cpuinfo and the memory of
    each NUMA node from /sys and /proc, for the inventory reporting layer.
    Its parts, and how they interact:
    - the CPU topology scanner [inodes_get_inumas_icpus] parses
      /proc/cpuinfo into the socket/core/thread topology, the NUMA node
      list and the CPU records, with a synthetic fallback topology, and
      stores [num_cpus], [num_nodes] and [topology] on the object;
    - the memory facade [inodes_get_imemory] calls the hugepage scanner
      [_inode_get_memory_hugepages] when compute_reserved.conf exists and
      the non-hugepage scanner [_inode_get_memory_nonhugepages] otherwise;
      both iterate over the [num_nodes] the CPU scan stored;
    - both memory scanners read the node's meminfo; the hugepage scanner
      also reads the hugepage directories, runs [cat] ([_is_strict]) and a
      PSS shell pipeline, and parses compute_reserved.conf;
    - [convert_range_string_to_list] is a pure range-string parser.

    ** Files
    - [Prelude] (this file): the exception type [exn], the result type
      [res], the state-and-exception monad [pyst] (a Python local keeps
      the value it had when an exception is caught further out), [try:
      except] and [for] loops, Python 2 floor division and [range], the
      hint databases [metal] and [metal_simp], and the shared tactics.
    - [PyStr]: [str.strip], [split], [startswith], [in], slicing, [int()]
      with its [ValueError], ["%d"], file lines; the round trip
      [int("%d" % n) = n].
    - [RangeParser]: node.py lines 123-136.  Theorems: the result is sorted
      and holds exactly the integers the parts name, the upper bound of
      "a-b" included (C4), the round trip
      from a printed list of items (C5), [ValueError] on an empty part
      (C8).
    - [LineRegex]: the anchored patterns [^...(\d+)] matched greedily;
      every pattern of node.py is such that the greedy match is the only
      match.  Lemmas on sequencing and literal prefixes.
    - [CpuTopology]: node.py lines 54-87 (the [CPU] class) and 138-288.
      The scanner state is the record [scan], one line of /proc/cpuinfo is
      [scan_line], the loop is [fold_left scan_line]; the fallback loops
      are [fallback_first] and [fallback_second].  The invariant [topo_wf]
      (thread numbering per core, counters, cells and sockets of the
      topology agree with the records, positions unique) holds after every
      line; [sock_wf] relates [inumas] to the "physical id" lines.  C9:
      [__ne__] is the negation of [__eq__].
    - [CpuFallback]: the fallback for the call the code makes (one socket,
      [num_cpus] cores, one thread), computed exactly.
    - [CpuMethod]: the method as a whole: consistency of the detected
      topology (C1), the fallback result (C2), [num_nodes] is the number
      of distinct sockets (C3), sockets of the records (C6), [num_cpus]
      counts "processor" lines (C7); runs on sample cpuinfo files.
    - [Host]: the class [Host] of the host's file system, commands and
      platform settings, with [_get_immediate_subdirs] and [_is_strict];
      [fake_host] builds an instance from finite maps for the samples.
    - [MemInfo]: the per-node meminfo loops of both scanners (lines
      396-446 and 538-575).  The six patterns are mutually exclusive, so
      the loops compute sums and last values (C10, C11); the strict
      overcommit value is CommitLimit itself (C12).
    - [Hugepages]: node.py lines 25-51 and 294-527 over any [Host]: the
      2M-only node of spec property 4 (C13), suppression between the two
      configuration markers (C14), the initial report (C15), the
      [OSError] of a missing hugepages directory (C16), and the vswitch
      reservation over any set of size directories (C21).
    - [NodeOperator]: the object (lines 90-108) and the facade (529-608):
      the non-hugepage report and the growth of [total_memory_nodes_mb]
      (C17), the memory report after the CPU scan has one entry per NUMA
      node of the returned CPU records (C18), an unreadable /proc/cpuinfo
      (C19).
    - [PciDevice]: src/python-inventoryclient/.../v1/pci_device.py, the
      REST paths and [get] over a class [Manager] that stands for
      [inventoryclient.common.base.Manager]; the display name (C20).

    ** Modelling choices
    Integers are [Z]: Python ints do not overflow.  [/] on ints is floor
    division ([py2_div]).  The 90% of the initial report is a binary64
    float, modelled with primitive floats; [float(n)] is exact for
    [|n| < 2^63], far above any page count.  Dictionaries are stdpp
    [gmap]s with string keys; dict values are [pyval]s.  Exceptions are
    values of [res]; Python 2.7 semantics are followed where they differ
    from Python 3 ([IOError] and [OSError] distinct, unknown regex escapes
    read as literals).  No definition uses fuel: every loop is a fold over
    a list or over [range], so every function is total.

    ** Not modelled
    Logging ([LOG.*]) and [CPU.__str__]/[__repr__] only format text.  The
    Python runtime functions (string methods, [re], [os.path.join]) are
    modelled in [PyStr], [LineRegex] and [Host], not mapped to the
    repository.  [inventoryclient.common.base], which pci_device.py
    extends, is not in the repository: only the two methods the client
    calls are stated, as the class [Manager]. *)

From stdpp Require Export base list gmap strings sorting.
From Stdlib Require Export ZArith.

Declare Scope py_scope.
Delimit Scope py_scope with py.

(** ** Python exceptions and results *)

(** The exception classes the modelled code raises or catches.  The model
    follows Python 2.7, for which the code was written: there [IOError]
    (raised by [open]) and [OSError] (raised by [os.listdir] and by
    [subprocess.Popen]) are distinct
    classes, so [except IOError] does not catch a failing [listdir]. *)
Inductive exn := IOError | OSError | ValueError | IndexError | CalledProcessError.

#[export] Instance exn_eq_dec : EqDecision exn.
Proof. solve_decision. Defined.

(** A computation that returns a value or raises. *)
Inductive res (A : Type) : Type :=
| Ok (a : A)
| Raise (e : exn).
Arguments Ok {A} a.
Arguments Raise {A} e.

#[export] Instance res_ret : MRet res := λ A a, Ok a.
#[export] Instance res_bind : MBind res :=
  λ A B f m, match m with Ok a => f a | Raise e => Raise e end.
#[export] Instance res_fmap : FMap res :=
  λ A B f m, match m with Ok a => Ok (f a) | Raise e => Raise e end.

(** ** State with exceptions

    Python locals mutated before an exception keep their values when the
    exception is caught further out, so a computation returns its final
    state on both outcomes. *)
Definition pyst (S A : Type) : Type := S → res A * S.

#[export] Instance pyst_ret S : MRet (pyst S) := λ A a s, (Ok a, s).
#[export] Instance pyst_bind S : MBind (pyst S) :=
  λ A B f m s,
    match m s with
    | (Ok a, s') => f a s'
    | (Raise e, s') => (Raise e, s')
    end.

Definition st_get {S} : pyst S S := λ s, (Ok s, s).
Definition st_modify {S} (f : S → S) : pyst S unit := λ s, (Ok tt, f s).
Definition st_lift {S A} (r : res A) : pyst S A := λ s, (r, s).

(** [try: m except e: pass] *)
Definition try_except {S} (e : exn) (m : pyst S unit) : pyst S unit :=
  λ s,
    match m s with
    | (Raise e', s') => if decide (e' = e) then (Ok tt, s') else (Raise e', s')
    | r => r
    end.

(** [for x in l: body(x)] *)
Fixpoint py_for {S A} (l : list A) (body : A → pyst S unit) : pyst S unit :=
  match l with
  | [] => mret tt
  | x :: l' => body x ≫= λ _, py_for l' body
  end.

(** ** Python 2 integer arithmetic *)

(** [a / b] on two ints in Python 2 is floor division. *)
Definition py2_div (a b : Z) : Z := Z.div a b.

(** [sum(l)] *)
Definition zsum (l : list Z) : Z := foldr Z.add 0%Z l.

(** [range(a, b)] *)
Definition py_range (a b : Z) : list Z := seqZ a (b - a).

(** ** Automation *)

Create HintDb metal discriminated.
Create Rewrite HintDb metal_simp.

(** Close a decidable goal on concrete data by evaluating its decision. *)
Ltac vm_decide :=
  match goal with |- ?P => apply (bool_decide_unpack P); vm_compute; exact I end.

(** Close an equation between closed terms by evaluation in the VM,
    without normalising the goal first (the kernel re-checks the cast). *)
Ltac vm_refl := match goal with |- _ = ?b => vm_cast_no_check (eq_refl b) end.

(** Case on the result of a [res] or state computation in the goal. *)
Ltac case_res :=
  repeat match goal with
  | |- context [match ?m with Ok _ => _ | Raise _ => _ end] =>
      let E := fresh "E" in destruct m eqn:E
  | |- context [match ?m with (_, _) => _ end] =>
      let E := fresh "E" in destruct m eqn:E
  end.

(** ** Generic lemmas *)

Lemma res_bind_Ok {A B} (a : A) (f : A → res B) : (Ok a ≫= f) = f a.
Proof. reflexivity. Qed.

Lemma res_bind_Raise {A B} e (f : A → res B) : (Raise e ≫= f) = Raise e.
Proof. reflexivity. Qed.

Lemma res_bind_Ok_inv {A B} (m : res A) (f : A → res B) b :
  (m ≫= f) = Ok b → ∃ a, m = Ok a ∧ f a = Ok b.
Proof. destruct m; simpl; [eauto | discriminate]. Qed.

Lemma res_bind_Raise_inv {A B} (m : res A) (f : A → res B) e :
  (m ≫= f) = Raise e → m = Raise e ∨ ∃ a, m = Ok a ∧ f a = Raise e.
Proof. destruct m; simpl; intros H; [right; eauto | left; congruence]. Qed.

#[export] Hint Rewrite @res_bind_Ok @res_bind_Raise : metal_simp.

Lemma py_for_app {S A} (l1 l2 : list A) (body : A → pyst S unit) s :
  py_for (l1 ++ l2) body s = (py_for l1 body ≫= λ _, py_for l2 body) s.
Proof.
  revert s. induction l1 as [|x l1 IH]; intros s; simpl; [reflexivity|].
  unfold mbind, pyst_bind. destruct (body x s) as [[[]|e] s']; simpl; auto.
Qed.

Lemma py_range_elem a b x : x ∈ py_range a b ↔ (a ≤ x < b)%Z.
Proof. unfold py_range. rewrite elem_of_seqZ. lia. Qed.

Lemma py_range_length a b : length (py_range a b) = Z.to_nat (b - a).
Proof. apply length_seqZ. Qed.

Lemma if_bool_decide_iff {A} (P Q : Prop) `{Decision P, Decision Q} (a b : A) :
  (P ↔ Q) → (if bool_decide P then a else b) = (if bool_decide Q then a else b).
Proof. intros Hiff. by rewrite (bool_decide_ext P Q Hiff). Qed.

Lemma py_range_cons_0 b : (0 < b)%Z → py_range 0 b = 0%Z :: py_range 1 b.
Proof. intros. unfold py_range. rewrite seqZ_cons by lia. f_equal. f_equal; lia. Qed.

Lemma py_range_empty a b : (b ≤ a)%Z → py_range a b = [].
Proof. intros. apply seqZ_nil. lia. Qed.

#[export] Hint Resolve py_range_empty : metal.

(** An invariant of every step is an invariant of a loop. *)
Lemma fold_left_invariant {A B} (P : A → Prop) (f : A → B → A) (l : list B) (a : A) :
  (∀ a b, b ∈ l → P a → P (f a b)) → P a → P (fold_left f l a).
Proof.
  revert a. induction l as [|b l IH]; intros a Hstep Ha; simpl; [done|].
  apply IH; [intros; apply Hstep; [by right|done] | apply Hstep; [left|done]].
Qed.

Lemma py_range_snoc a b : (a ≤ b)%Z → py_range a (b + 1) = py_range a b ++ [b].
Proof.
  intros Hab. unfold py_range. replace (b + 1 - a)%Z with ((b - a) + 1)%Z by lia.
  rewrite seqZ_app by lia. rewrite (seqZ_cons _ 1), (seqZ_nil _ (Z.pred 1)) by lia.
  do 3 f_equal. lia.
Qed.

(** A loop [for k in range(n)] with an invariant indexed by the number
    of iterations done. *)
Lemma fold_py_range_ind {A} (P : Z → A → Prop) (f : A → Z → A) (a : A) (n : Z) :
  (0 ≤ n)%Z → P 0%Z a → (∀ k x, (0 ≤ k < n)%Z → P k x → P (k + 1)%Z (f x k)) →
  P n (fold_left f (py_range 0 n) a).
Proof.
  intros Hn H0 Hstep. rewrite <- (Z2Nat.id n) in * by lia. clear Hn.
  induction (Z.to_nat n) as [|m IH]; [done|].
  rewrite Nat2Z.inj_succ, <- Z.add_1_r, py_range_snoc, fold_left_app by lia. simpl.
  apply Hstep; [lia|]. apply IH. intros k x Hk. apply Hstep. lia.
Qed.

Lemma zsum_app l1 l2 : zsum (l1 ++ l2) = (zsum l1 + zsum l2)%Z.
Proof. induction l1 as [|x l1 IH]; simpl; [done|]. unfold zsum in *. simpl. lia. Qed.

#[export] Hint Rewrite zsum_app : metal_simp.

(** Take apart a successful chain of [res] binds. *)
Ltac inv_ok :=
  repeat match goal with
  | H : mbind _ ?m = Ok _ |- _ =>
      let a := fresh "a" in let Ha := fresh "Ha" in
      apply res_bind_Ok_inv in H as (a & Ha & H)
  | H : Ok _ = Ok _ |- _ => injection H as H
  end.
