(* ===== verification/PyStr.v ===== *)
(** * Python 2 string operations used by node.py

    [str.strip], [str.split], [str.startswith], [in], slicing, [int()],
    ["%d" % n], file line iteration and [readline], and the anchored
    regular expressions of the scanner ([re.compile(r'^...').search]),
    each written out on Stdlib [string] so the models compute. *)

From S2P Require Import Prelude.
From Stdlib Require Import Ascii String.

(** ** Character classes (ASCII, Python 2 [str]) *)

(** [str.isspace] and the regex class [\s]: space, \t, \n, \v, \f, \r. *)
Definition is_space (c : ascii) : bool :=
  match nat_of_ascii c with
  | 9 | 10 | 11 | 12 | 13 | 32 => true
  | _ => false
  end.

(** [\d] *)
Definition is_digit (c : ascii) : bool :=
  let n := nat_of_ascii c in (48 <=? n)%nat && (n <=? 57)%nat.

(** [\w] without the UNICODE flag: [A-Za-z0-9_]. *)
Definition is_word (c : ascii) : bool :=
  let n := nat_of_ascii c in
  is_digit c || ((65 <=? n)%nat && (n <=? 90)%nat)
  || ((97 <=? n)%nat && (n <=? 122)%nat) || (n =? 95)%nat.

Definition digit_val (c : ascii) : Z := (Z.of_nat (nat_of_ascii c) - 48)%Z.

Fixpoint in_chars (c : ascii) (cs : string) : bool :=
  match cs with
  | EmptyString => false
  | String d r => Ascii.eqb c d || in_chars c r
  end.

(** ** strip *)

Fixpoint lstrip_with (p : ascii → bool) (s : string) : string :=
  match s with
  | EmptyString => EmptyString
  | String c r => if p c then lstrip_with p r else s
  end.

Fixpoint rstrip_with (p : ascii → bool) (s : string) : string :=
  match s with
  | EmptyString => EmptyString
  | String c r =>
      let r' := rstrip_with p r in
      if String.eqb r' EmptyString && p c then EmptyString else String c r'
  end.

Definition strip_with (p : ascii → bool) (s : string) : string :=
  rstrip_with p (lstrip_with p s).

(** [s.strip()] *)
Definition str_strip (s : string) : string := strip_with is_space s.

(** [s.strip(chars)] *)
Definition str_strip_chars (chars s : string) : string :=
  strip_with (λ c, in_chars c chars) s.

(** ** split *)

(** [s.split(sep)] for a one-character separator: never empty. *)
Fixpoint str_split (sep : ascii) (s : string) : list string :=
  match s with
  | EmptyString => [EmptyString]
  | String c r =>
      let parts := str_split sep r in
      if Ascii.eqb c sep then EmptyString :: parts
      else match parts with
           | p :: ps => String c p :: ps
           | [] => [String c EmptyString]
           end
  end.

(** [s.split(sep, 1)] *)
Fixpoint str_split1 (sep : ascii) (s : string) : list string :=
  match s with
  | EmptyString => [EmptyString]
  | String c r =>
      if Ascii.eqb c sep then [EmptyString; r]
      else match str_split1 sep r with
           | p :: ps => String c p :: ps
           | [] => [String c EmptyString]
           end
  end.

(** [s.split()]: runs of whitespace separate, no empty fields. *)
Fixpoint str_split_ws (s : string) : list string :=
  match s with
  | EmptyString => []
  | String c r =>
      let parts := str_split_ws r in
      if is_space c then parts
      else match r, parts with
           | String c' _, p :: ps =>
               if is_space c' then String c EmptyString :: parts
               else String c p :: ps
           | _, _ => String c EmptyString :: parts
           end
  end.

(** [sep.join(parts)] *)
Fixpoint str_join (sep : ascii) (parts : list string) : string :=
  match parts with
  | [] => EmptyString
  | [p] => p
  | p :: ps => (p +:+ String sep (str_join sep ps))%string
  end.

(** ** Tests *)

(** [s.startswith(pre)] *)
Fixpoint str_startswith (pre s : string) : bool :=
  match pre, s with
  | EmptyString, _ => true
  | String a pr, String b r => Ascii.eqb a b && str_startswith pr r
  | String _ _, EmptyString => false
  end.

(** [needle in s] *)
Fixpoint str_contains (needle s : string) : bool :=
  str_startswith needle s ||
  match s with
  | EmptyString => false
  | String _ r => str_contains needle r
  end.

(** ** Slicing *)

Fixpoint str_drop_last (s : string) : string :=
  match s with
  | EmptyString | String _ EmptyString => EmptyString
  | String c r => String c (str_drop_last r)
  end.

(** [s[1:-1]] *)
Definition str_slice_1_m1 (s : string) : string :=
  match s with
  | EmptyString => EmptyString
  | String _ r => str_drop_last r
  end.

(** ** Files as text: [for line in f] and [f.readline()] *)

(** The lines of a file, each keeping its terminating newline. *)
Fixpoint py_lines (s : string) : list string :=
  match s with
  | EmptyString => []
  | String c r =>
      if Ascii.eqb c "010"%char then String c EmptyString :: py_lines r
      else match py_lines r with
           | [] => [String c EmptyString]
           | l :: ls => String c l :: ls
           end
  end.

Definition readline (s : string) : string := default EmptyString (head (py_lines s)).

(** ** [int(s)] in base 10 *)

Fixpoint str_forall (p : ascii → bool) (s : string) : bool :=
  match s with
  | EmptyString => true
  | String c r => p c && str_forall p r
  end.

Definition all_digits (s : string) : bool := str_forall is_digit s.

Fixpoint dec_acc (acc : Z) (s : string) : Z :=
  match s with
  | EmptyString => acc
  | String c r => dec_acc (10 * acc + digit_val c)%Z r
  end.

Definition parse_unsigned (s : string) : res Z :=
  if negb (String.eqb s EmptyString) && all_digits s then Ok (dec_acc 0 s)
  else Raise ValueError.

(** Surrounding whitespace, an optional sign, one or more digits;
    anything else raises [ValueError]. *)
Definition py_int (s : string) : res Z :=
  match str_strip s with
  | String c r =>
      if Ascii.eqb c "-"%char then Z.opp <$> parse_unsigned r
      else if Ascii.eqb c "+"%char then parse_unsigned r
      else parse_unsigned (String c r)
  | EmptyString => Raise ValueError
  end.

(** ** ["%d" % n] *)

Definition digit_char (d : N) : ascii := ascii_of_N (48 + d).

Fixpoint show_N_go (fuel : nat) (n : N) (acc : string) : string :=
  match fuel with
  | O => String (digit_char n) acc
  | S f =>
      if (n <? 10)%N then String (digit_char n) acc
      else show_N_go f (n / 10)%N (String (digit_char (n mod 10)%N) acc)
  end.

Definition show_N (n : N) : string := show_N_go (N.to_nat (N.size n)) n EmptyString.

Definition pct_d (z : Z) : string :=
  match z with
  | Zneg p => String "-"%char (show_N (Npos p))
  | _ => show_N (Z.to_N z)
  end.

(** ** Lemmas *)

(** stdpp makes [String.append] opaque to [simpl]; these are its equations. *)
Lemma str_app_nil_l (b : string) : (EmptyString +:+ b)%string = b.
Proof. reflexivity. Qed.

Lemma str_app_cons c (a b : string) : (String c a +:+ b)%string = String c (a +:+ b).
Proof. reflexivity. Qed.

#[export] Hint Rewrite str_app_nil_l str_app_cons : metal_simp.

Lemma str_app_assoc (a b c : string) : ((a +:+ b) +:+ c = a +:+ (b +:+ c))%string.
Proof. induction a; [done | rewrite !str_app_cons; congruence]. Qed.

Lemma str_app_nil_r (a : string) : (a +:+ EmptyString)%string = a.
Proof. induction a; [done | rewrite !str_app_cons; congruence]. Qed.

Lemma str_forall_app p a b :
  str_forall p (a +:+ b)%string = str_forall p a && str_forall p b.
Proof.
  induction a as [|c a IH]; [done|]. rewrite str_app_cons. simpl. rewrite IH.
  by destruct (p c).
Qed.

Lemma dec_acc_app a s1 s2 : dec_acc a (s1 +:+ s2)%string = dec_acc (dec_acc a s1) s2.
Proof. revert a. induction s1; intros; rewrite ?str_app_cons; simpl; auto. Qed.

Lemma digit_char_spec d :
  (d < 10)%N → is_digit (digit_char d) = true ∧ digit_val (digit_char d) = Z.of_N d.
Proof.
  intros Hd. assert (d = 0 ∨ d = 1 ∨ d = 2 ∨ d = 3 ∨ d = 4 ∨ d = 5 ∨ d = 6 ∨ d = 7
    ∨ d = 8 ∨ d = 9)%N as Hc by lia.
  destruct_or! Hc; subst; split; reflexivity.
Qed.

Lemma show_N_go_acc f n acc :
  show_N_go f n acc = (show_N_go f n EmptyString +:+ acc)%string.
Proof.
  revert n acc. induction f as [|f IH]; intros n acc; simpl; [done|].
  destruct (n <? 10)%N; [done|].
  rewrite (IH _ (String _ acc)), (IH _ (String _ EmptyString)).
  rewrite str_app_assoc. done.
Qed.

Lemma show_N_go_spec f n :
  (n < 2 ^ N.of_nat f)%N →
  dec_acc 0 (show_N_go f n EmptyString) = Z.of_N n ∧
  all_digits (show_N_go f n EmptyString) = true ∧
  show_N_go f n EmptyString ≠ EmptyString.
Proof.
  revert n. induction f as [|f IH]; intros n Hn; cbn [show_N_go].
  - assert (n = 0)%N as -> by (simpl in Hn; lia). repeat split; done.
  - destruct (N.ltb_spec n 10) as [Hlt|Hge].
    + destruct (digit_char_spec n Hlt) as [Hd Hv]. unfold all_digits.
      cbn [dec_acc str_forall]. rewrite Hd, Hv. repeat split; try done; lia.
    + rewrite show_N_go_acc.
      assert (n mod 10 < 10)%N as Hm by (apply N.mod_lt; lia).
      destruct (digit_char_spec _ Hm) as [Hd Hv].
      assert (n / 10 < 2 ^ N.of_nat f)%N as Hq.
      { rewrite Nat2N.inj_succ, N.pow_succ_r' in Hn.
        apply N.Div0.div_lt_upper_bound; lia. }
      destruct (IH _ Hq) as (IHv & IHd & IHne).
      rewrite dec_acc_app. unfold all_digits in *.
      rewrite str_forall_app, IHv. cbn [dec_acc str_forall]. rewrite IHd, Hd, Hv.
      repeat split.
      * rewrite (N.div_mod n 10) at 3 by lia. lia.
      * by destruct (show_N_go f (n / 10) EmptyString).
Qed.

Lemma show_N_spec n :
  dec_acc 0 (show_N n) = Z.of_N n ∧ all_digits (show_N n) = true ∧ show_N n ≠ EmptyString.
Proof.
  apply show_N_go_spec. rewrite N2Nat.id. apply N.size_gt.
Qed.

Lemma digit_not_sign c :
  is_digit c = true → Ascii.eqb c "-"%char = false ∧ Ascii.eqb c "+"%char = false.
Proof.
  intros Hd. split; destruct (Ascii.eqb_spec c "-"%char), (Ascii.eqb_spec c "+"%char);
    subst; done.
Qed.

Lemma digits_no_space s : all_digits s = true → str_forall (λ c, negb (is_space c)) s = true.
Proof.
  induction s as [|c s IH]; simpl; [done|]. unfold all_digits; simpl.
  intros [Hc Hs]%andb_prop. rewrite IH by done.
  destruct c as [[] [] [] [] [] [] [] []]; done.
Qed.

Lemma lstrip_with_none p s : str_forall (λ c, negb (p c)) s = true → lstrip_with p s = s.
Proof. destruct s as [|c s]; simpl; [done|]. intros [Hc _]%andb_prop. by destruct (p c). Qed.

Lemma rstrip_with_none p s : str_forall (λ c, negb (p c)) s = true → rstrip_with p s = s.
Proof.
  induction s as [|c s IH]; simpl; [done|]. intros [Hc Hs]%andb_prop.
  rewrite IH by done. destruct (p c); [done|]. by rewrite andb_false_r.
Qed.

Lemma str_strip_no_space s : str_forall (λ c, negb (is_space c)) s = true → str_strip s = s.
Proof.
  intros Hd. unfold str_strip, strip_with.
  rewrite lstrip_with_none, rstrip_with_none; done.
Qed.

Lemma str_strip_digits s : all_digits s = true → str_strip s = s.
Proof. intros Hd%digits_no_space. by apply str_strip_no_space. Qed.

Lemma parse_unsigned_show n : parse_unsigned (show_N n) = Ok (Z.of_N n).
Proof.
  destruct (show_N_spec n) as (Hv & Hd & Hne). unfold parse_unsigned.
  rewrite Hd, Hv. destruct (show_N n); done.
Qed.

Lemma py_int_show_N n : py_int (show_N n) = Ok (Z.of_N n).
Proof.
  destruct (show_N_spec n) as (_ & Hd & Hne). unfold py_int.
  rewrite str_strip_digits by done.
  destruct (show_N n) as [|c r] eqn:E; [done|].
  unfold all_digits in Hd; simpl in Hd. apply andb_prop in Hd as [Hc _].
  destruct (digit_not_sign c Hc) as [-> ->]. rewrite <- E. apply parse_unsigned_show.
Qed.

(** [int("%d" % z) == z] *)
Lemma py_int_pct_d z : py_int (pct_d z) = Ok z.
Proof.
  destruct z as [|p|p]; [apply (py_int_show_N 0) | apply (py_int_show_N (Npos p)) |].
  destruct (show_N_spec (Npos p)) as (_ & Hd & _).
  unfold py_int, pct_d. rewrite str_strip_no_space.
  - rewrite Ascii.eqb_refl. change (Z.opp <$> parse_unsigned (show_N (Npos p)) = Ok (Zneg p)).
    rewrite parse_unsigned_show. done.
  - cbn [str_forall]. apply digits_no_space in Hd. rewrite Hd. done.
Qed.

Lemma pct_d_digits z : (0 ≤ z)%Z → all_digits (pct_d z) = true ∧ pct_d z ≠ EmptyString.
Proof. intros. destruct z; try lia; apply (show_N_spec (Z.to_N _)). Qed.

#[export] Hint Rewrite py_int_pct_d : metal_simp.

(** *** split and join *)

Lemma str_split_ne sep s : str_split sep s ≠ [].
Proof.
  induction s as [|c s IH]; simpl; [done|].
  destruct (Ascii.eqb c sep); [done|]. by destruct (str_split sep s).
Qed.

Lemma str_split_app_nosep sep p s :
  in_chars sep p = false →
  str_split sep (p +:+ s)%string =
  match str_split sep s with q :: qs => (p +:+ q)%string :: qs | [] => [p] end.
Proof.
  induction p as [|c p IH]; intros H.
  - rewrite str_app_nil_l. pose proof (str_split_ne sep s).
    destruct (str_split sep s); [done|]. by rewrite str_app_nil_l.
  - rewrite str_app_cons. simpl in *. apply orb_false_iff in H as [Hc Hp].
    rewrite IH by done. rewrite Ascii.eqb_sym, Hc.
    by destruct (str_split sep s).
Qed.

Lemma str_split_nosep sep p : in_chars sep p = false → str_split sep p = [p].
Proof.
  intros H. rewrite <- (str_app_nil_r p) at 1. rewrite str_split_app_nosep by done.
  simpl. by rewrite str_app_nil_r.
Qed.

(** [sep.join(parts).split(sep) == parts] when no part contains [sep]. *)
Lemma str_split_join sep parts :
  parts ≠ [] → Forall (λ p, in_chars sep p = false) parts →
  str_split sep (str_join sep parts) = parts.
Proof.
  induction parts as [|p ps IH]; intros Hne Hall; [done|].
  apply Forall_cons in Hall as [Hp Hps]. destruct ps as [|p' ps'].
  - by apply str_split_nosep.
  - change (str_join sep (p :: p' :: ps')) with
      (p +:+ String sep (str_join sep (p' :: ps')))%string.
    rewrite str_split_app_nosep by done.
    assert (str_split sep (String sep (str_join sep (p' :: ps'))) =
            EmptyString :: str_split sep (str_join sep (p' :: ps'))) as ->.
    { cbn [str_split]. by rewrite Ascii.eqb_refl. }
    rewrite IH by done. by rewrite str_app_nil_r.
Qed.

Lemma str_contains_char c s : str_contains (String c EmptyString) s = in_chars c s.
Proof.
  induction s as [|d s IH]; simpl; [done|]. rewrite IH, andb_true_r, Ascii.eqb_sym.
  done.
Qed.

Lemma digits_no_char c s : is_digit c = false → all_digits s = true → in_chars c s = false.
Proof.
  intros Hc. induction s as [|d s IH]; simpl; [done|]. unfold all_digits; simpl.
  intros [Hd Hs]%andb_prop. rewrite IH by done.
  destruct (Ascii.eqb_spec c d); subst; [congruence|done].
Qed.

Lemma in_chars_app c a b : in_chars c (a +:+ b)%string = in_chars c a || in_chars c b.
Proof.
  induction a as [|d a IH]; [done|]. rewrite str_app_cons. simpl. rewrite IH.
  by rewrite orb_assoc.
Qed.

Lemma str_forall_join p sep parts :
  p sep = true → Forall (λ s, str_forall p s = true) parts →
  str_forall p (str_join sep parts) = true.
Proof.
  intros Hsep. induction parts as [|s [|s' ps] IH]; intros Hall; [done|..].
  - by apply Forall_cons in Hall as [? _].
  - apply Forall_cons in Hall as [Hs Hps].
    change (str_join sep (s :: s' :: ps)) with (s +:+ String sep (str_join sep (s' :: ps)))%string.
    rewrite str_forall_app, Hs. simpl. rewrite Hsep. by apply IH.
Qed.

Lemma str_join_ne sep parts :
  Forall (λ s, s ≠ EmptyString) parts → parts ≠ [] → str_join sep parts ≠ EmptyString.
Proof.
  intros Hall Hne. destruct parts as [|s [|s' ps]]; [done| by inversion Hall|].
  inversion Hall; subst. simpl. by destruct s.
Qed.
