(* ===== verification/RangeParser.v ===== *)
(** * Range parser: [NodeOperator.convert_range_string_to_list]

    node.py lines 123-136.  A comma-separated list of integers and
    inclusive dash ranges ("0-3,5") becomes the sorted list of the
    integers it names, duplicates kept; a malformed part raises
    [ValueError].  Python's [list.sort] is modelled by stdpp's merge sort:
    [convert_range_sorted_iff] shows the result is the one sorted
    permutation of the expansion, so the choice of stable sort is
    irrelevant.  [part_names] says, without [range], which integers a
    part names; C4 characterises the result by it. *)

From S2P Require Import Prelude PyStr.
From Stdlib Require Import Ascii String.

Module RangeParser.

(** One part of [s.split(',')] (lines 128-134). *)
Definition expand_part (part : string) : res (list Z) :=
  if str_contains "-" part then
    match str_split "-"%char part with
    | [a; b] =>
        a' ← py_int a;
        b' ← py_int b;
        Ok (py_range a' (b' + 1))
    | _ => Raise ValueError
    end
  else
    a ← py_int part;
    Ok [a].

(** The loop of lines 127-134: parts are expanded in order and the
    expansions concatenated ([olist.extend] / [olist.append]). *)
Fixpoint expand_parts (parts : list string) : res (list Z) :=
  match parts with
  | [] => Ok []
  | p :: ps =>
      l ← expand_part p;
      r ← expand_parts ps;
      Ok (l ++ r)
  end.

(** The unsorted [olist] of lines 124-134. *)
Definition range_olist (s : string) : res (list Z) :=
  let s := str_strip s in
  if String.eqb s EmptyString then Ok []
  else expand_parts (str_split ","%char s).

Definition convert_range_string_to_list (s : string) : res (list Z) :=
  olist ← range_olist s;
  Ok (merge_sort Z.le olist).

(** ** Lemmas *)

Lemma py_int_exn s e : py_int s = Raise e → e = ValueError.
Proof.
  unfold py_int, parse_unsigned. destruct (str_strip s) as [|c r]; [congruence|].
  repeat case_match; simpl; congruence.
Qed.

Lemma expand_part_exn p e : expand_part p = Raise e → e = ValueError.
Proof.
  unfold expand_part. intros H. repeat case_match; try congruence;
  repeat match goal with
  | H : (_ ≫= _) = Raise _ |- _ =>
      apply res_bind_Raise_inv in H as [H|(? & ? & H)]
  | H : py_int _ = Raise _ |- _ => by apply py_int_exn in H
  end; simpl in *; congruence.
Qed.

Lemma expand_parts_exn ps e : expand_parts ps = Raise e → e = ValueError.
Proof.
  induction ps as [|p ps IH]; simpl; [congruence|].
  destruct (expand_part p) eqn:Ep; simpl; [|intros [= <-]; by eapply expand_part_exn].
  destruct (expand_parts ps); simpl; [congruence|]. intros [= <-]. by apply IH.
Qed.

Lemma expand_parts_fail ps p :
  p ∈ ps → expand_part p = Raise ValueError → expand_parts ps = Raise ValueError.
Proof.
  induction ps as [|q ps IH]; intros Hin Hp; [by apply elem_of_nil in Hin|].
  simpl. apply elem_of_cons in Hin as [->|Hin].
  - by rewrite Hp.
  - destruct (expand_part q) eqn:Eq; simpl.
    + by rewrite IH.
    + f_equal. by eapply expand_part_exn.
Qed.

Lemma expand_parts_app ps1 ps2 l1 l2 :
  expand_parts ps1 = Ok l1 → expand_parts ps2 = Ok l2 →
  expand_parts (ps1 ++ ps2) = Ok (l1 ++ l2).
Proof.
  revert l1. induction ps1 as [|p ps IH]; intros l1; simpl.
  - by intros [= <-].
  - destruct (expand_part p), (expand_parts ps) eqn:E; simpl; try congruence.
    intros [= <-] H2. rewrite (IH _ eq_refl H2). simpl. by rewrite app_assoc.
Qed.

#[export] Instance Z_le_total : Total Z.le.
Proof. intros x y. lia. Qed.

#[export] Instance Z_le_antisymm : AntiSymm eq Z.le.
Proof. intros x y ??. lia. Qed.

Lemma merge_sort_Z_spec (raw : list Z) :
  Sorted Z.le (merge_sort Z.le raw) ∧ merge_sort Z.le raw ≡ₚ raw.
Proof. split; [apply Sorted_merge_sort, _ | apply merge_sort_Permutation]. Qed.

(** ** Specification-side printer, for the round trip *)

(** An item of a range string: a single integer or an inclusive span. *)
Inductive item := Single (a : Z) | Span (a b : Z).

#[export] Instance item_eq_dec : EqDecision item.
Proof. solve_decision. Defined.

Definition item_str (i : item) : string :=
  match i with
  | Single a => pct_d a
  | Span a b => (pct_d a +:+ String "-"%char (pct_d b))%string
  end.

Definition item_vals (i : item) : list Z :=
  match i with
  | Single a => [a]
  | Span a b => py_range a (b + 1)
  end.

Definition item_nonneg (i : item) : Prop :=
  match i with
  | Single a => (0 ≤ a)%Z
  | Span a b => (0 ≤ a)%Z ∧ (0 ≤ b)%Z
  end.

Definition format_ranges (items : list item) : string :=
  str_join ","%char (map item_str items).

Lemma pct_d_no c z : (0 ≤ z)%Z → is_digit c = false → in_chars c (pct_d z) = false.
Proof. intros Hz Hc. apply digits_no_char; [done|]. by apply pct_d_digits. Qed.

Lemma item_str_chars i :
  item_nonneg i →
  in_chars ","%char (item_str i) = false ∧
  str_forall (λ c, negb (is_space c)) (item_str i) = true ∧ item_str i ≠ EmptyString.
Proof.
  destruct i as [a|a b]; simpl; intros Hn.
  - destruct (pct_d_digits a Hn) as [Hd Hne].
    repeat split; [by apply pct_d_no | by apply digits_no_space | done].
  - destruct Hn as [Ha Hb].
    destruct (pct_d_digits a Ha) as [Hda Hnea], (pct_d_digits b Hb) as [Hdb _].
    rewrite in_chars_app, str_forall_app. simpl.
    rewrite !pct_d_no by done. rewrite !digits_no_space by done.
    repeat split; try done. by destruct (pct_d a).
Qed.

Lemma expand_part_item i : item_nonneg i → expand_part (item_str i) = Ok (item_vals i).
Proof.
  destruct i as [a|a b]; simpl; intros Hn; unfold expand_part.
  - rewrite str_contains_char, pct_d_no by done. by rewrite py_int_pct_d.
  - destruct Hn as [Ha Hb].
    assert (str_split "-"%char (pct_d a +:+ String "-"%char (pct_d b))%string
            = [pct_d a; pct_d b]) as Hsplit.
    { apply (str_split_join "-"%char [pct_d a; pct_d b]); [done|].
      repeat constructor; by apply pct_d_no. }
    rewrite str_contains_char, in_chars_app, Hsplit.
    cbn [in_chars]. rewrite Ascii.eqb_refl, orb_true_l, orb_true_r.
    by rewrite !py_int_pct_d.
Qed.

Lemma expand_parts_items items :
  Forall item_nonneg items →
  expand_parts (map item_str items) = Ok (List.concat (map item_vals items)).
Proof.
  induction items as [|i its IH]; intros Hall; [done|].
  apply Forall_cons in Hall as [Hi His]. simpl.
  rewrite expand_part_item by done. simpl. by rewrite IH.
Qed.

(** The integers one part of the string names, stated without
    [range]: [n] for a part "n", and [a <= x <= b] for a part "a-b". *)
Definition part_names (part : string) (x : Z) : Prop :=
  if str_contains "-" part then
    ∃ a b a' b', str_split "-"%char part = [a; b] ∧ py_int a = Ok a' ∧ py_int b = Ok b' ∧
                 (a' ≤ x ≤ b')%Z
  else py_int part = Ok x.

Lemma expand_part_members p l x : expand_part p = Ok l → x ∈ l ↔ part_names p x.
Proof.
  unfold expand_part, part_names. destruct (str_contains "-" p).
  - destruct (str_split "-"%char p) as [|a [|b [|c r]]]; simpl; try congruence.
    destruct (py_int a) as [a'|] eqn:Ha, (py_int b) as [b'|] eqn:Hb; simpl; try congruence.
    intros [= <-]. rewrite py_range_elem. split.
    + intros ?. exists a, b, a', b'. split_and!; done || lia.
    + intros (? & ? & ? & ? & [= <- <-] & Ha' & Hb' & ?). rewrite Ha in Ha'; rewrite Hb in Hb'. simplify_eq. lia.
  - destruct (py_int p) eqn:Hp; simpl; [|congruence]. intros [= <-].
    rewrite list_elem_of_singleton. split; congruence.
Qed.

Lemma expand_parts_members ps l x :
  expand_parts ps = Ok l → x ∈ l ↔ ∃ p, p ∈ ps ∧ part_names p x.
Proof.
  revert l. induction ps as [|p ps IH]; intros l; simpl.
  - intros [= <-]. split; [by intros ?%elem_of_nil | by intros (? & ?%elem_of_nil & _)].
  - destruct (expand_part p) eqn:E1; simpl; [|congruence].
    destruct (expand_parts ps) eqn:E2; simpl; [|congruence]. intros [= <-].
    rewrite elem_of_app, (expand_part_members _ _ _ E1), (IH _ eq_refl).
    setoid_rewrite elem_of_cons. naive_solver.
Qed.

(** ** Properties *)

(** C4: a string that parses gives a sorted list whose members are
    exactly the integers its comma-separated parts name: [n] for a part
    "n" and every [x] with [a <= x <= b] for a part "a-b", the upper bound
    included. *)
Theorem convert_range_members s l :
  convert_range_string_to_list s = Ok l →
  Sorted Z.le l ∧
  ∀ x, x ∈ l ↔ ∃ part, part ∈ str_split ","%char (str_strip s) ∧ part_names part x.
Proof.
  unfold convert_range_string_to_list. destruct (range_olist s) as [raw|] eqn:E; simpl; [|congruence].
  intros [= <-]. destruct (merge_sort_Z_spec raw) as [Hs Hp]. split; [done|]. intros x.
  rewrite Hp. unfold range_olist in E. destruct (String.eqb_spec (str_strip s) EmptyString) as [He|_].
  - injection E as <-. rewrite He. cbn [str_split]. split; [by intros ?%elem_of_nil|].
    intros (p & ->%list_elem_of_singleton & Hp'). by vm_compute in Hp'.
  - by apply expand_parts_members.
Qed.

(** The result is the sorted arrangement of the expansion: the code
    returns [l] exactly when [l] is sorted and a permutation of the
    concatenated expansion of the parts, whichever stable sort implements
    [list.sort]. *)
Lemma convert_range_sorted_iff s raw l :
  range_olist s = Ok raw →
  convert_range_string_to_list s = Ok l ↔ Sorted Z.le l ∧ l ≡ₚ raw.
Proof.
  intros Hraw. unfold convert_range_string_to_list. rewrite Hraw. simpl.
  destruct (merge_sort_Z_spec raw) as [Hs Hp]. split.
  - by intros [= <-].
  - intros [Hl Hlp]. f_equal. apply (Sorted_unique Z.le); [done|done|].
    by rewrite Hp, Hlp.
Qed.

(** C8: an empty part ("1,,2", a trailing comma, " , ") raises [ValueError]. *)
Theorem convert_range_empty_part s :
  str_strip s ≠ EmptyString →
  EmptyString ∈ str_split ","%char (str_strip s) →
  convert_range_string_to_list s = Raise ValueError.
Proof.
  intros Hne Hin. unfold convert_range_string_to_list, range_olist.
  destruct (String.eqb_spec (str_strip s) EmptyString); [done|].
  by rewrite (expand_parts_fail _ _ Hin).
Qed.

(** C5, round trip: printing non-negative items as "a" and "a-b", joined by
    commas, and parsing gives the sorted expansion of the items. *)
Theorem convert_range_roundtrip items :
  items ≠ [] → Forall item_nonneg items →
  ∃ l, convert_range_string_to_list (format_ranges items) = Ok l ∧
       Sorted Z.le l ∧ l ≡ₚ List.concat (map item_vals items).
Proof.
  intros Hne Hall.
  assert (Forall (λ i, in_chars ","%char (item_str i) = false ∧
            str_forall (λ c, negb (is_space c)) (item_str i) = true ∧
            item_str i ≠ EmptyString) items) as Hc.
  { eapply Forall_impl; [exact Hall|]. apply item_str_chars. }
  assert (map item_str items ≠ []) as Hne' by (by destruct items).
  assert (str_strip (format_ranges items) = format_ranges items) as Hs.
  { apply str_strip_no_space, str_forall_join; [done|].
    apply Forall_map. eapply Forall_impl; [exact Hc|]. naive_solver. }
  assert (range_olist (format_ranges items) = Ok (List.concat (map item_vals items))) as Hraw.
  { unfold range_olist. rewrite Hs.
    destruct (String.eqb_spec (format_ranges items) EmptyString) as [He|_].
    - exfalso. revert He. apply str_join_ne; [|done].
      apply Forall_map. eapply Forall_impl; [exact Hc|]. naive_solver.
    - unfold format_ranges. rewrite str_split_join; [|done|].
      + by apply expand_parts_items.
      + apply Forall_map. eapply Forall_impl; [exact Hc|]. naive_solver. }
  pose proof (merge_sort_Z_spec (List.concat (map item_vals items))) as Hm.
  eexists. split; [|exact Hm]. by apply (convert_range_sorted_iff _ _ _ Hraw).
Qed.

(** ** Concrete runs (spec section 8, property 1) *)

Example convert_range_0_3_5 : convert_range_string_to_list "0-3,5" = Ok [0; 1; 2; 3; 5]%Z.
Proof. vm_compute. reflexivity. Qed.

Example convert_range_blank : convert_range_string_to_list " " = Ok [].
Proof. vm_compute. reflexivity. Qed.

(** A reversed span names no integer. *)
Example convert_range_reversed : convert_range_string_to_list "3-1" = Ok [].
Proof. vm_compute. reflexivity. Qed.

(** Overlapping parts keep their duplicates. *)
Example convert_range_dups : convert_range_string_to_list "2,1-3" = Ok [1; 2; 2; 3]%Z.
Proof. vm_compute. reflexivity. Qed.

(** A negative number cannot be written: its dash splits the part. *)
Example convert_range_negative : convert_range_string_to_list "-1" = Raise ValueError.
Proof. vm_compute. reflexivity. Qed.

Example convert_range_two_dashes : convert_range_string_to_list "1-2-3" = Raise ValueError.
Proof. vm_compute. reflexivity. Qed.

Lemma convert_range_members_witness :
  Sorted Z.le [0; 1; 2; 3; 5]%Z ∧
  ∀ x, x ∈ [0; 1; 2; 3; 5]%Z ↔
       ∃ part, part ∈ str_split ","%char (str_strip "0-3,5") ∧ part_names part x.
Proof. apply convert_range_members. vm_compute. reflexivity. Defined.

Lemma convert_range_empty_part_witness :
  convert_range_string_to_list "1,,2" = Raise ValueError.
Proof. apply convert_range_empty_part; [vm_compute; discriminate | vm_decide]. Defined.

Lemma convert_range_roundtrip_witness :
  ∃ l, convert_range_string_to_list (format_ranges [Span 0 3; Single 5]) = Ok l ∧
       Sorted Z.le l ∧ l ≡ₚ List.concat (map item_vals [Span 0 3; Single 5]).
Proof. apply convert_range_roundtrip; [vm_decide | repeat constructor; simpl; lia]. Defined.

End RangeParser.
