(* ===== verification/LineRegex.v ===== *)
(** * The anchored line patterns of node.py

    Every regular expression of the scanner has the shape
    [^ atoms (\d+)] or [^ atoms (\w+)]: literals, a class of alternatives
    ([[Pp]]), one-or-more runs of a class ([\s+], [\d+]) and single class
    characters ([\S]), followed by one capture group; all are used with
    [re.search], which with a leading [^] and no MULTILINE flag matches at
    position 0 only.  [re_search] matches such a pattern greedily.  In
    every pattern of node.py a run is followed by an atom that cannot
    start with a character of the run's class (a run of spaces by ':' or
    a letter or a digit, a run of digits by a space), so the greedy match
    is the only match and agrees with the backtracking semantics of
    Python's [re] module. *)

From S2P Require Import Prelude PyStr.
From Stdlib Require Import Ascii String.

Module LineRegex.

(** Character classes: [\s], [\S], [\d], [\w]. *)
Inductive cls := CSpace | CNonSpace | CDigit | CWord.

Definition cls_test (k : cls) (c : ascii) : bool :=
  match k with
  | CSpace => is_space c
  | CNonSpace => negb (is_space c)
  | CDigit => is_digit c
  | CWord => is_word c
  end.

Inductive atom :=
| Lit (c : ascii)        (** a literal character *)
| OneOf (cs : string)    (** [[...]] *)
| Run (k : cls)          (** [k+], greedy *)
| One (k : cls).         (** a single [k] *)

(** [^ prefix (group+)] *)
Record regex := mk_regex { re_prefix : list atom; re_group : cls }.

Fixpoint span (p : ascii → bool) (s : string) : string * string :=
  match s with
  | String c r =>
      if p c then let '(g, rest) := span p r in (String c g, rest)
      else (EmptyString, s)
  | EmptyString => (EmptyString, EmptyString)
  end.

Fixpoint match_atoms (pat : list atom) (s : string) : option string :=
  match pat with
  | [] => Some s
  | a :: pat' =>
      match a, s with
      | Lit c, String d r => if Ascii.eqb c d then match_atoms pat' r else None
      | OneOf cs, String d r => if in_chars d cs then match_atoms pat' r else None
      | One k, String d r => if cls_test k d then match_atoms pat' r else None
      | Run k, _ =>
          let '(g, r) := span (cls_test k) s in
          if String.eqb g EmptyString then None else match_atoms pat' r
      | _, EmptyString => None
      end
  end.

(** [re.search(line)]: the captured group when the line matches. *)
Definition re_search (re : regex) (s : string) : option string :=
  r ← match_atoms (re_prefix re) s;
  let '(g, _) := span (cls_test (re_group re)) r in
  if String.eqb g EmptyString then None else Some g.

(** [int(match.group(1))] of a [(\d+)] group. *)
Definition re_int (re : regex) (s : string) : option Z :=
  g ← re_search re s; Some (dec_acc 0 g).

Fixpoint lits (s : string) : list atom :=
  match s with
  | EmptyString => []
  | String c r => Lit c :: lits r
  end.

(** [\s+:\s+] *)
Definition colon_sep : list atom := [Run CSpace; Lit ":"%char; Run CSpace].

(** Atoms are matched one after the other, each deterministically. *)
Lemma match_atoms_app p q s :
  match_atoms (p ++ q) s = r ← match_atoms p s; match_atoms q r.
Proof.
  revert s. induction p as [|a p IH]; intros s; [done|].
  destruct a; simpl.
  1-2,4: destruct s as [|d r]; [done|]; case_match; [apply IH|done].
  destruct (span _ s) as [g r]. case_match; [done|apply IH].
Qed.

Lemma span_app p s g r : span p s = (g, r) → s = (g +:+ r)%string.
Proof.
  revert g r. induction s as [|c s IH]; intros g r; simpl; [by intros [= <- <-]|].
  destruct (p c); [|by intros [= <- <-]].
  destruct (span p s) as [g' r'] eqn:E. intros [= <- <-]. rewrite str_app_cons. f_equal. by apply IH.
Qed.

(** What is left after a match is a suffix of the line. *)
Lemma match_atoms_suffix pat s r : match_atoms pat s = Some r → ∃ pre, s = (pre +:+ r)%string.
Proof.
  revert s. induction pat as [|a pat IH]; intros s; simpl; [intros [= <-]; by exists EmptyString|].
  destruct a.
  1,2,4: destruct s as [|d s]; [done|]; case_match; [|done];
    intros (pre & ->)%IH; by exists (String d pre).
  destruct (span _ s) as [g r'] eqn:E. apply span_app in E as ->. case_match; [done|].
  intros (pre & ->)%IH. exists (g +:+ pre)%string. by rewrite str_app_assoc.
Qed.

(** Two literal words of which neither is a prefix of the other cannot
    both start a string. *)
Lemma str_prefix_clash (a b s1 s2 : string) :
  str_startswith a b = false → str_startswith b a = false →
  (a +:+ s1)%string ≠ (b +:+ s2)%string.
Proof.
  revert b. induction a as [|c a IH]; intros b Hab Hba; [done|].
  destruct b as [|d b]; [done|]. simpl in *. rewrite !str_app_cons.
  destruct (Ascii.eqb_spec c d) as [->|Hne]; simpl in *.
  - rewrite Ascii.eqb_refl in Hba. intros [= H]. by apply (IH b).
  - intros [= ? _]. done.
Qed.

(** A pattern that starts with literals only matches lines that start
    with them. *)
Lemma match_atoms_lits p q s r :
  match_atoms (lits p ++ q) s = Some r →
  ∃ s', s = (p +:+ s')%string ∧ match_atoms q s' = Some r.
Proof.
  revert s. induction p as [|c p IH]; intros s; simpl; [by exists s|].
  destruct s as [|d s]; [done|]. destruct (Ascii.eqb_spec c d) as [->|]; [|done].
  intros (s' & -> & Hm)%IH. by exists s'.
Qed.

Lemma re_search_lits p q k s g :
  re_search (mk_regex (lits p ++ q) k) s = Some g → ∃ s', s = (p +:+ s')%string.
Proof.
  unfold re_search; simpl. destruct (match_atoms _ s) eqn:Hm; [|done].
  apply match_atoms_lits in Hm as (s' & -> & _). intros _. by exists s'.
Qed.

Lemma re_int_search re s n : re_int re s = Some n → ∃ g, re_search re s = Some g.
Proof. unfold re_int. destruct (re_search re s); [eauto | done]. Qed.

End LineRegex.
