(* ===== verification/CpuTopology.v ===== *)
(** * CPU topology scanner: [NodeOperator.inodes_get_inumas_icpus]

    node.py lines 54-87 (class [CPU]) and 138-288.  The scanner reads
    /proc/cpuinfo line by line, keeping the current processor, socket,
    core and thread ids, a per-(socket, core) counter that numbers the
    hyperthreads, the nested [topology] dictionary
    socket -> core -> thread -> cpu, and the lists [inumas] and [icpus]
    it returns.  When no "core id" line was seen it falls back to a
    synthetic single-socket topology.

    The state is the record [scan]; one line is one [scan_line] step and
    the main loop is [fold_left scan_line]; [fallback_loops] is the two
    nested loops of lines 237-284 for any sizes, and
    [inodes_get_inumas_icpus] composes them as lines 149-288 do. *)

From S2P Require Import Prelude PyStr LineRegex.
From Stdlib Require Import Ascii String.
Import LineRegex.

Module CpuTopology.

(** ** The [CPU] class (lines 54-87) *)

Record CPU := mk_CPU {
  cpu : Z;
  numa_node : Z;
  core : Z;
  thread : Z;
  cpu_family : option string;
  cpu_model : option string;
  revision : option string
}.

(** [__eq__] compares cpu, numa_node, core and thread only. *)
Definition CPU_eq (a b : CPU) : bool :=
  bool_decide (cpu a = cpu b) && bool_decide (numa_node a = numa_node b) &&
  bool_decide (core a = core b) && bool_decide (thread a = thread b).

(** [__ne__] *)
Definition CPU_ne (a b : CPU) : bool :=
  bool_decide (cpu a ≠ cpu b) || bool_decide (numa_node a ≠ numa_node b) ||
  bool_decide (core a ≠ core b) || bool_decide (thread a ≠ thread b).

(** ** Scanner state *)

(** [topology[socket][core][thread] = cpu] *)
Abbreviation topo := (gmap Z (gmap Z (gmap Z Z))).

(** The stash [icpu_attrs] of attributes read before a "core id" line. *)
Record attrs := mk_attrs { a_family : option string; a_model : option string }.

Definition no_attrs : attrs := mk_attrs None None.

Record scan := mk_scan {
  num_cpus : Z;                        (** [self.num_cpus] *)
  topology : topo;                     (** [self.topology] *)
  thread_cnt : gmap Z (gmap Z Z);      (** [thread_cnt] *)
  cur_cpu : Z;                         (** [cpu] *)
  socket_id : Z;
  core_id : Z;
  thread_id : Z;
  inumas : list Z;                     (** the [numa_node] of each entry of [inumas] *)
  icpus : list CPU;
  sockets : list Z;
  icpu_attrs : attrs
}.

(** Lines 149-166. *)
Definition init_scan : scan :=
  mk_scan 0 ∅ ∅ (-1) (-1) (-1) (-1) [] [] [] no_attrs.

(** ** Patterns (lines 155-159) *)

Definition re_processor : regex :=
  mk_regex (OneOf "Pp" :: lits "rocessor" ++ colon_sep) CDigit.
Definition re_socket : regex := mk_regex (lits "physical id" ++ colon_sep) CDigit.
Definition re_core : regex := mk_regex (lits "core id" ++ colon_sep) CDigit.
Definition re_cpu_family : regex := mk_regex (lits "cpu family" ++ colon_sep) CDigit.
Definition re_cpu_model : regex := mk_regex (lits "model name" ++ colon_sep) CWord.

(** [name, value = [s.strip() for s in line.split(':', 1)]]: the value.
    A line matched by one of the patterns contains ':', so the unpacking
    never fails there. *)
Definition line_value (line : string) : string :=
  match map str_strip (str_split1 ":"%char line) with
  | [_; v] => v
  | _ => EmptyString
  end.

(** ** Nested dictionaries *)

(** [m[s][c]] *)
Definition lookup2 {A} (m : gmap Z (gmap Z A)) (s c : Z) : option A :=
  match m !! s with Some ms => ms !! c | None => None end.

(** [t[s][c][th]] *)
Definition lookup3 (t : topo) (s c th : Z) : option Z :=
  match lookup2 t s c with Some mc => mc !! th | None => None end.

(** [if s not in t: t[s] = {}; if c not in t[s]: t[s][c] = {};
    t[s][c][th] = v] *)
Definition topo_set (t : topo) (s c th v : Z) : topo :=
  let ms := default ∅ (t !! s) in
  let mc := default ∅ (ms !! c) in
  <[s := <[c := <[th := v]> mc]> ms]> t.

(** Lines 208-214: the thread id is the number of earlier "core id"
    lines with the same (socket, core). *)
Definition next_thread (tc : gmap Z (gmap Z Z)) (s c : Z) : Z :=
  match lookup2 tc s c with None => 0 | Some k => k + 1 end.

Definition bump_thread (tc : gmap Z (gmap Z Z)) (s c : Z) : gmap Z (gmap Z Z) :=
  <[s := <[c := next_thread tc s c]> (default ∅ (tc !! s))]> tc.

(** ** One line of /proc/cpuinfo (lines 168-232) *)

(** "processor" (lines 169-176) *)
Definition on_processor (st : scan) (n : Z) : scan :=
  mk_scan (num_cpus st + 1) (topology st) (thread_cnt st) n (-1) (-1) (-1)
    (inumas st) (icpus st) (sockets st) (icpu_attrs st).

Definition set_attrs (st : scan) (a : attrs) : scan :=
  mk_scan (num_cpus st) (topology st) (thread_cnt st) (cur_cpu st) (socket_id st)
    (core_id st) (thread_id st) (inumas st) (icpus st) (sockets st) a.

(** "physical id" (lines 192-202) *)
Definition on_socket (st : scan) (s : Z) : scan :=
  let fresh := bool_decide (s ∉ sockets st) in
  mk_scan (num_cpus st) (topology st) (thread_cnt st) (cur_cpu st) s
    (core_id st) (thread_id st)
    (if fresh then inumas st ++ [s] else inumas st)
    (icpus st)
    (if fresh then sockets st ++ [s] else sockets st)
    (icpu_attrs st).

(** "core id" (lines 204-232) *)
Definition on_core (st : scan) (c : Z) : scan :=
  let s := socket_id st in
  let th := next_thread (thread_cnt st) s c in
  let rec := mk_CPU (cur_cpu st) s c th (a_family (icpu_attrs st))
                    (a_model (icpu_attrs st)) None in
  mk_scan (num_cpus st) (topo_set (topology st) s c th (cur_cpu st))
    (bump_thread (thread_cnt st) s c) (cur_cpu st) s c th
    (inumas st) (icpus st ++ [rec]) (sockets st) no_attrs.

Definition scan_line (st : scan) (line : string) : scan :=
  match re_int re_processor line with
  | Some n => on_processor st n
  | None =>
  match re_search re_cpu_family line with
  | Some _ => set_attrs st (mk_attrs (Some (line_value line)) (a_model (icpu_attrs st)))
  | None =>
  match re_search re_cpu_model line with
  | Some _ => set_attrs st (mk_attrs (a_family (icpu_attrs st)) (Some (line_value line)))
  | None =>
  match re_int re_socket line with
  | Some s => on_socket st s
  | None =>
  match re_int re_core line with
  | Some c => on_core st c
  | None => st
  end end end end end.

(** ** The fallback topology (lines 237-284) *)

(** [self.topology[s] = {}] and [self.topology[s][c] = {}] *)
Definition topo_reset_socket (t : topo) (s : Z) : topo := <[s := ∅]> t.
Definition topo_reset_core (t : topo) (s c : Z) : topo :=
  <[s := <[c := ∅]> (default ∅ (t !! s))]> t.

Definition with_topo (st : scan) (t : topo) : scan :=
  mk_scan (num_cpus st) t (thread_cnt st) (cur_cpu st) (socket_id st)
    (core_id st) (thread_id st) (inumas st) (icpus st) (sockets st) (icpu_attrs st).

(** [if socket_id not in sockets: sockets.append(..); inumas.append(..)] *)
Definition add_socket (st : scan) (s : Z) : scan :=
  if bool_decide (s ∈ sockets st) then st
  else mk_scan (num_cpus st) (topology st) (thread_cnt st) (cur_cpu st) (socket_id st)
         (core_id st) (thread_id st) (inumas st ++ [s]) (icpus st)
         (sockets st ++ [s]) (icpu_attrs st).

(** [topology[s][c][t] = v; icpus.append({'cpu': cpu, ...})] *)
Definition record_cpu (st : scan) (s c th v : Z) : scan :=
  mk_scan (num_cpus st) (topo_set (topology st) s c th v) (thread_cnt st) (cur_cpu st)
    s c th (inumas st) (icpus st ++ [mk_CPU (cur_cpu st) s c th None None None])
    (sockets st) (icpu_attrs st).

Definition set_cpu (st : scan) (v : Z) : scan :=
  mk_scan (num_cpus st) (topology st) (thread_cnt st) v (socket_id st)
    (core_id st) (thread_id st) (inumas st) (icpus st) (sockets st) (icpu_attrs st).

(** First loop (lines 240-260): every cell is set to 0 and recorded with
    the stale value of [cpu]. *)
Definition fallback_first (ns nc nt : Z) (st : scan) : scan :=
  fold_left (λ st s,
    let st := add_socket (with_topo st (topo_reset_socket (topology st) s)) s in
    fold_left (λ st c,
      let st := with_topo st (topo_reset_core (topology st) s c) in
      fold_left (λ st th, record_cpu st s c th 0) (py_range 0 nt) st)
      (py_range 0 nc) st)
    (py_range 0 ns) st.

(** Second loop (lines 263-283): thread outer, core middle, socket inner. *)
Definition fallback_second (ns nc nt : Z) (st : scan) : scan :=
  fold_left (λ st th,
    fold_left (λ st c,
      fold_left (λ st s,
        let st := add_socket st s in
        let st := record_cpu st s c th (cur_cpu st) in
        set_cpu st (cur_cpu st + 1))
        (py_range 0 ns) st)
      (py_range 0 nc) st)
    (py_range 0 nt) (set_cpu st 0).

Definition fallback_loops (ns nc nt : Z) (st : scan) : scan :=
  fallback_second ns nc nt (fallback_first ns nc nt (with_topo st ∅)).

(** ** The whole method *)

Record cpu_result := mk_cpu_result {
  r_num_cpus : Z;          (** [self.num_cpus] *)
  r_num_nodes : Z;         (** [self.num_nodes] *)
  r_topology : topo;       (** [self.topology] *)
  r_inumas : list Z;       (** returned [inumas] *)
  r_icpus : list CPU       (** returned [icpus] *)
}.

Definition result_of (st : scan) : cpu_result :=
  mk_cpu_result (num_cpus st) (Z.of_nat (size (topology st))) (topology st)
    (inumas st) (icpus st).

Definition inodes_get_inumas_icpus (cpuinfo : list string) : cpu_result :=
  let st := fold_left scan_line cpuinfo init_scan in
  if bool_decide (size (topology st) = 0%nat)
  then result_of (fallback_loops 1 (num_cpus st) 1 st)
  else result_of st.

(** ** Dictionary lemmas *)

Lemma lookup2_bump tc s c s' c' :
  lookup2 (bump_thread tc s c) s' c' =
  if decide (s' = s ∧ c' = c) then Some (next_thread tc s c) else lookup2 tc s' c'.
Proof.
  unfold lookup2, bump_thread. destruct (decide (s' = s)) as [->|Hs].
  - rewrite lookup_insert_eq. destruct (decide (c' = c)) as [->|Hc].
    + rewrite lookup_insert_eq. case_decide; naive_solver.
    + rewrite lookup_insert_ne by done. case_decide; [naive_solver|].
      destruct (tc !! s); simpl; [done|]. apply lookup_empty.
  - rewrite lookup_insert_ne by done. case_decide; naive_solver.
Qed.

Lemma lookup3_topo_set t s c th v s' c' th' :
  lookup3 (topo_set t s c th v) s' c' th' =
  if decide (s' = s ∧ c' = c ∧ th' = th) then Some v else lookup3 t s' c' th'.
Proof.
  unfold lookup3, lookup2, topo_set. destruct (decide (s' = s)) as [->|Hs].
  - rewrite lookup_insert_eq. destruct (decide (c' = c)) as [->|Hc].
    + rewrite lookup_insert_eq. destruct (decide (th' = th)) as [->|Ht].
      * rewrite lookup_insert_eq. case_decide; naive_solver.
      * rewrite lookup_insert_ne by done. case_decide; [naive_solver|].
        destruct (t !! s) as [ms|]; simpl; [|by rewrite lookup_empty].
        destruct (ms !! c); simpl; [done|]. by rewrite lookup_empty.
    + rewrite lookup_insert_ne by done. case_decide; [naive_solver|].
      destruct (t !! s); simpl; [done|]. by rewrite lookup_empty.
  - rewrite lookup_insert_ne by done. case_decide; naive_solver.
Qed.

Lemma topo_set_socket t s c th v s' :
  is_Some (topo_set t s c th v !! s') ↔ s' = s ∨ is_Some (t !! s').
Proof.
  unfold topo_set. destruct (decide (s' = s)) as [->|Hs].
  - rewrite lookup_insert_eq. naive_solver.
  - rewrite lookup_insert_ne by done. naive_solver.
Qed.

(** ** The main-loop invariant *)

(** The records of [l] on core [c] of socket [s], in file order. *)
Definition cpus_at (l : list CPU) (s c : Z) : list CPU :=
  filter (λ i, numa_node i = s ∧ core i = c) l.

Definition cnt (l : list CPU) (s c : Z) : nat := List.length (cpus_at l s c).

(** The position [(socket, core, thread)] of a record. *)
Definition cpu_key (i : CPU) : Z * Z * Z := (numa_node i, core i, thread i).

(** The topology, the thread counters and the records agree:
    hyperthreads of a core are numbered 0, 1, ... in file order; the
    counter holds the last number; [topology] holds exactly the records;
    its sockets are exactly the sockets of the records. *)
Record topo_wf (t : topo) (tc : gmap Z (gmap Z Z)) (l : list CPU) : Prop := {
  wf_threads : ∀ s c, thread <$> cpus_at l s c = seqZ 0 (Z.of_nat (cnt l s c));
  wf_counter : ∀ s c, lookup2 tc s c =
      match cnt l s c with O => None | S k => Some (Z.of_nat k) end;
  wf_cells : ∀ s c th v, lookup3 t s c th = Some v ↔
      ∃ i, i ∈ l ∧ cpu i = v ∧ numa_node i = s ∧ core i = c ∧ thread i = th;
  wf_sockets : ∀ s, is_Some (t !! s) ↔ ∃ i, i ∈ l ∧ numa_node i = s;
  wf_keys : NoDup (cpu_key <$> l)
}.

Definition scan_wf (st : scan) : Prop := topo_wf (topology st) (thread_cnt st) (icpus st).

Lemma cpus_at_snoc l r s c :
  cpus_at (l ++ [r]) s c =
  cpus_at l s c ++ (if decide (numa_node r = s ∧ core r = c) then [r] else []).
Proof. unfold cpus_at. rewrite filter_app, filter_cons, filter_nil. by case_decide. Qed.

Lemma cpus_at_thread_lt l s c i :
  (∀ s c, thread <$> cpus_at l s c = seqZ 0 (Z.of_nat (cnt l s c))) →
  i ∈ l → numa_node i = s → core i = c → (0 ≤ thread i < Z.of_nat (cnt l s c))%Z.
Proof.
  intros Hw Hi Hs Hc. assert (thread i ∈ thread <$> cpus_at l s c) as Hin.
  { apply list_elem_of_fmap_2. unfold cpus_at. apply list_elem_of_filter. naive_solver. }
  rewrite Hw, elem_of_seqZ in Hin. lia.
Qed.

Lemma next_thread_cnt t tc l s c : topo_wf t tc l → next_thread tc s c = Z.of_nat (cnt l s c).
Proof. intros [_ Hc _ _ _]. unfold next_thread. rewrite Hc. destruct (cnt l s c); lia. Qed.

Lemma on_core_wf st c : scan_wf st → scan_wf (on_core st c).
Proof.
  intros Hwf. pose proof Hwf as [Hth Hcnt Hcell Hsock Hkey].
  unfold scan_wf, on_core; simpl. rewrite (next_thread_cnt _ _ _ _ _ Hwf).
  generalize (socket_id st) as s. intros s.
  remember (cnt (icpus st) s c) as n eqn:En.
  set (r := mk_CPU _ s c (Z.of_nat n) _ _ None).
  assert (cpu r = cur_cpu st ∧ numa_node r = s ∧ core r = c ∧ thread r = Z.of_nat n)
    as (Hrv & Hrs & Hrc & Hrt) by done.
  clearbody r.
  assert (∀ s' c', cnt (icpus st ++ [r]) s' c' =
    (cnt (icpus st) s' c' + if decide (s' = s ∧ c' = c) then 1 else 0)%nat) as Hn.
  { intros s' c'. unfold cnt. rewrite cpus_at_snoc, length_app.
    repeat case_decide; simpl; naive_solver. }
  split.
  - intros s' c'. rewrite cpus_at_snoc, fmap_app, Hn, Hth. case_decide as Hk.
    + destruct Hk as [Hs' Hc']. rewrite Hrs in Hs'. rewrite Hrc in Hc'. subst s' c'.
      rewrite decide_True by done. rewrite Nat2Z.inj_add, seqZ_app by lia.
      change (Z.of_nat 1) with 1%Z. rewrite (seqZ_cons _ 1), (seqZ_nil _ (Z.pred 1)) by lia.
      rewrite fmap_cons, fmap_nil, Hrt, En. done.
    + rewrite decide_False by naive_solver. by rewrite app_nil_r, Nat.add_0_r.
  - intros s' c'. rewrite lookup2_bump, Hn. case_decide as Hk.
    + destruct Hk as [-> ->]. rewrite (next_thread_cnt _ _ _ _ _ Hwf).
      rewrite <- En, Nat.add_1_r. done.
    + rewrite Hcnt, Nat.add_0_r. done.
  - intros s' c' th v. rewrite lookup3_topo_set. setoid_rewrite elem_of_app.
    setoid_rewrite list_elem_of_singleton. case_decide as Hk.
    + destruct Hk as (-> & -> & ->). split.
      * intros [= <-]. exists r. naive_solver.
      * intros (i & [Hi | ->] & Hv & Hs & Hc & Ht); [|congruence].
        pose proof (cpus_at_thread_lt _ _ _ _ Hth Hi Hs Hc). rewrite <- En in *. lia.
    + rewrite Hcell. split.
      * intros (i & Hi & Hrest). exists i. auto.
      * intros (i & [Hi | ->] & Hrest); [by exists i|].
        destruct Hrest as (_ & Hs & Hc & Ht). exfalso. apply Hk. split_and!; congruence.
  - intros s'. rewrite topo_set_socket, Hsock. setoid_rewrite elem_of_app.
    setoid_rewrite list_elem_of_singleton. split.
    + intros [-> | (i & Hi & Hs)]; [exists r | exists i]; auto.
    + intros (i & [Hi | ->] & Hs); [right; by exists i | left; congruence].
  - rewrite fmap_app, NoDup_app. split_and!; [done| |apply NoDup_singleton].
    intros k Hk Hk'. apply list_elem_of_singleton in Hk'. subst k.
    apply list_elem_of_fmap in Hk as (i & Heq & Hi). unfold cpu_key in Heq.
    injection Heq as Hs Hc Ht.
    pose proof (cpus_at_thread_lt _ _ _ _ Hth Hi (eq_sym Hs) (eq_sym Hc)) as Hlt.
    rewrite Hrs, Hrc, <- En in Hlt. lia.
Qed.

(** Lines that are not "core id" lines leave the topology, the counters
    and the records alone. *)
Lemma scan_wf_congr st st' :
  topology st' = topology st → thread_cnt st' = thread_cnt st → icpus st' = icpus st →
  scan_wf st → scan_wf st'.
Proof. unfold scan_wf. by intros -> -> ->. Qed.

Lemma scan_line_wf st line : scan_wf st → scan_wf (scan_line st line).
Proof.
  intros Hwf. unfold scan_line.
  repeat case_match; try (by apply on_core_wf); by eapply scan_wf_congr.
Qed.

Lemma init_scan_wf : scan_wf init_scan.
Proof.
  split; simpl.
  - intros. reflexivity.
  - intros. reflexivity.
  - intros s c th v. unfold lookup3, lookup2. rewrite lookup_empty. split; [done|].
    by intros (i & Hi%elem_of_nil & _).
  - intros s. rewrite lookup_empty. split; [by intros []|]. by intros (i & Hi%elem_of_nil & _).
  - constructor.
Qed.

Lemma scan_all_wf lines : scan_wf (fold_left scan_line lines init_scan).
Proof. apply fold_left_invariant; [intros; by apply scan_line_wf | apply init_scan_wf]. Qed.

(** The socket bookkeeping: [inumas] lists the sockets of the "physical
    id" lines, once each, and a record is on one of them or on the unknown
    socket [-1]. *)
Record sock_wf (st : scan) : Prop := {
  sw_inumas : inumas st = sockets st;
  sw_nodup : NoDup (sockets st);
  sw_cur : socket_id st ∈ sockets st ∨ socket_id st = (-1)%Z;
  sw_cpus : ∀ i, i ∈ icpus st → numa_node i ∈ sockets st ∨ numa_node i = (-1)%Z
}.

Lemma scan_line_sock_wf st line : sock_wf st → sock_wf (scan_line st line).
Proof.
  intros [Hin Hnd Hcur Hcpu]. unfold scan_line.
  repeat case_match; try by split.
  - (* processor *) split; simpl; auto.
  - (* physical id *) unfold on_socket. case_bool_decide as Hf; split; simpl; auto.
    + by rewrite Hin.
    + apply NoDup_app. split_and!; [done| |apply NoDup_singleton].
      by intros x Hx ->%list_elem_of_singleton.
    + left. apply elem_of_app. right. by apply list_elem_of_singleton.
    + intros i Hi. rewrite elem_of_app. destruct (Hcpu i Hi); auto.
  - (* core id *) split; simpl; auto. intros i [Hi | ->%list_elem_of_singleton]%elem_of_app; auto.
Qed.

Lemma scan_all_sock_wf lines : sock_wf (fold_left scan_line lines init_scan).
Proof.
  apply fold_left_invariant; [intros; by apply scan_line_sock_wf|].
  split; simpl; [done | constructor | by right | by intros ? ?%elem_of_nil].
Qed.

(** ** The comparisons of the [CPU] class *)

(** C9: [__ne__] is the negation of [__eq__], and [__eq__] compares the cpu
    number and the position only: two records that differ only in
    family, model or revision are equal. *)
Theorem CPU_eq_ne a b :
  CPU_ne a b = negb (CPU_eq a b) ∧
  (CPU_eq a b = true ↔ cpu a = cpu b ∧ cpu_key a = cpu_key b).
Proof.
  unfold CPU_ne, CPU_eq, cpu_key. split.
  - by repeat case_bool_decide.
  - rewrite !andb_true_iff, !bool_decide_eq_true. split.
    + intros (((H1 & H2) & H3) & H4). by rewrite H1, H2, H3, H4.
    + intros [H1 Heq]. injection Heq as H2 H3 H4. done.
Qed.

End CpuTopology.
