(* ===== verification/CpuFallback.v ===== *)
(** * The synthetic topology of [inodes_get_inumas_icpus] (node.py 236-284)

    The method calls the two fallback loops with one socket, one thread
    and [n = self.num_cpus] cores.  The first loop sets every cell to 0
    and appends a record per cell carrying the stale [cpu] of the last
    "processor" line; the second loop numbers the cells 0, 1, ... and
    appends a second record per cell.  [fallback_exact] computes the
    result of both loops for that call. *)

From S2P Require Import Prelude PyStr LineRegex CpuTopology.
From Stdlib Require Import Ascii String.
Import CpuTopology.

Module CpuFallback.

(** [{c: {0: c} for c in range(n)}]: the cores of socket 0 after the
    second loop. *)
Definition fb_cores (n : Z) : gmap Z (gmap Z Z) :=
  list_to_map ((λ c, (c, {[0%Z := c]})) <$> py_range 0 n).

(** The record the first loop appends for core [c]. *)
Definition stale_cpu (v c : Z) : CPU := mk_CPU v 0 c 0 None None None.

(** The record the second loop appends for core [c]. *)
Definition fresh_cpu (c : Z) : CPU := mk_CPU c 0 c 0 None None None.

(** ** Map lemmas *)

Lemma py_range_0_1 : py_range 0 1 = [0%Z].
Proof. reflexivity. Qed.

Lemma lookup_fb_cores n c :
  (0 ≤ n)%Z → fb_cores n !! c = if decide (0 ≤ c < n)%Z then Some {[0%Z := c]} else None.
Proof.
  intros Hn. rewrite <- (Z2Nat.id n) by lia. clear Hn. unfold fb_cores.
  induction (Z.to_nat n) as [|m IH].
  - simpl. rewrite decide_False by lia. apply lookup_empty.
  - rewrite Nat2Z.inj_succ, <- Z.add_1_r, py_range_snoc, fmap_app by lia. simpl.
    rewrite list_to_map_snoc.
    + destruct (decide (c = Z.of_nat m)) as [->|Hne].
      * rewrite lookup_insert_eq, decide_True by lia. done.
      * rewrite lookup_insert_ne, IH by done. repeat case_decide; done || lia.
    + rewrite <- list_fmap_compose. unfold compose. simpl. rewrite list_fmap_id.
      rewrite py_range_elem. lia.
Qed.

Lemma topo_set_single M c th v :
  topo_set {[0%Z := M]} 0 c th v = {[0%Z := <[c := <[th := v]> (default ∅ (M !! c))]> M]}.
Proof. unfold topo_set. rewrite lookup_singleton_eq. simpl. apply insert_singleton_eq. Qed.

Lemma topo_reset_core_single M c :
  topo_reset_core {[0%Z := M]} 0 c = {[0%Z := <[c := ∅]> M]}.
Proof.
  unfold topo_reset_core. rewrite lookup_singleton_eq. simpl. apply insert_singleton_eq.
Qed.

Lemma add_socket_in st s : s ∈ sockets st → add_socket st s = st.
Proof. intros Hs. unfold add_socket. by rewrite bool_decide_eq_true_2. Qed.

Lemma add_socket_sockets st s : s ∈ sockets (add_socket st s).
Proof.
  unfold add_socket. case_bool_decide; [done|]. simpl.
  apply elem_of_app. right. by apply list_elem_of_singleton.
Qed.

(** ** The first loop *)

(** After [k] cores of the first loop. *)
Definition first_inv (st1 : scan) (k : Z) (x : scan) : Prop :=
  (∃ M, topology x = {[0%Z := M]} ∧
        ∀ c, M !! c = if decide (0 ≤ c < k)%Z then Some {[0%Z := 0%Z]} else None) ∧
  icpus x = icpus st1 ++ (stale_cpu (cur_cpu st1) <$> py_range 0 k) ∧
  cur_cpu x = cur_cpu st1 ∧ sockets x = sockets st1 ∧ inumas x = inumas st1 ∧
  num_cpus x = num_cpus st1.

Lemma first_step st1 k x :
  (0 ≤ k)%Z → first_inv st1 k x →
  first_inv st1 (k + 1)
    (let x := with_topo x (topo_reset_core (topology x) 0 k) in
     fold_left (λ x th, record_cpu x 0 k th 0) (py_range 0 1) x).
Proof.
  intros Hk ((M & HT & HM) & Hi & Hc & Hs & Hn & Hnc). rewrite py_range_0_1.
  unfold first_inv. simpl.
  rewrite HT, topo_reset_core_single, topo_set_single, lookup_insert_eq, insert_insert_eq.
  simpl. split_and!; [|by rewrite Hi, Hc, py_range_snoc, fmap_app, app_assoc by lia|done..].
  eexists. split; [done|]. intros c. destruct (decide (c = k)) as [->|Hne].
  - rewrite lookup_insert_eq, decide_True by lia. by rewrite insert_empty.
  - rewrite lookup_insert_ne, HM by done. repeat case_decide; done || lia.
Qed.

(** The state after line 240's [self.topology[0] = {}] and the socket. *)
Definition first_start (st : scan) : scan :=
  add_socket (with_topo (with_topo st ∅) (topo_reset_socket (topology (with_topo st ∅)) 0)) 0.

Lemma first_loop st n :
  (0 ≤ n)%Z → first_inv (first_start st) n (fallback_first 1 n 1 (with_topo st ∅)).
Proof.
  intros Hn. unfold fallback_first. rewrite py_range_0_1. simpl. fold (first_start st).
  apply (fold_py_range_ind (first_inv (first_start st))); [done| |intros; by apply first_step; [lia|]].
  unfold first_inv. split_and!; [|by rewrite app_nil_r|done..].
  exists ∅. split; [|intros c; rewrite lookup_empty; case_decide; [lia|done]].
  unfold first_start, add_socket, topo_reset_socket. case_bool_decide; simpl; by rewrite insert_empty.
Qed.

(** ** The second loop *)

(** After [k] cores of the second loop. *)
Definition second_inv (st2 : scan) (n k : Z) (x : scan) : Prop :=
  (∃ M, topology x = {[0%Z := M]} ∧
        ∀ c, M !! c = if decide (0 ≤ c < k)%Z then Some {[0%Z := c]}
                      else if decide (0 ≤ c < n)%Z then Some {[0%Z := 0%Z]} else None) ∧
  icpus x = icpus st2 ++ (fresh_cpu <$> py_range 0 k) ∧
  cur_cpu x = k ∧ sockets x = sockets st2 ∧ inumas x = inumas st2 ∧
  num_cpus x = num_cpus st2.

Lemma second_step st2 n k x :
  (0 ≤ k < n)%Z → 0%Z ∈ sockets st2 → second_inv st2 n k x →
  second_inv st2 n (k + 1)
    (fold_left (λ x s,
       let x := add_socket x s in
       let x := record_cpu x s k 0 (cur_cpu x) in
       set_cpu x (cur_cpu x + 1)) (py_range 0 1) x).
Proof.
  intros Hk H0 ((M & HT & HM) & Hi & Hc & Hs & Hn & Hnc). rewrite py_range_0_1. simpl.
  rewrite add_socket_in by (by rewrite Hs). unfold second_inv. simpl.
  rewrite HT, topo_set_single, (HM k), decide_False, decide_True by lia. simpl.
  rewrite insert_singleton_eq.
  split_and!; [|by rewrite Hi, Hc, py_range_snoc, fmap_app, app_assoc by lia|lia|done..].
  eexists. split; [done|]. intros c. destruct (decide (c = k)) as [->|Hne].
  - rewrite lookup_insert_eq, decide_True by lia. by rewrite Hc.
  - rewrite lookup_insert_ne, HM by done. repeat case_decide; done || lia.
Qed.

Lemma first_start_fields st :
  icpus (first_start st) = icpus st ∧ cur_cpu (first_start st) = cur_cpu st ∧
  num_cpus (first_start st) = num_cpus st ∧ 0%Z ∈ sockets (first_start st) ∧
  inumas (first_start st) = inumas st ++ (if bool_decide (0%Z ∈ sockets st) then [] else [0%Z]).
Proof.
  split_and!; [unfold first_start, add_socket; case_bool_decide; done..|apply add_socket_sockets|].
  unfold first_start, add_socket. simpl. case_bool_decide; simpl; by rewrite ?app_nil_r.
Qed.

(** ** Both loops, as the method calls them *)

(** With one socket, [n] cores and one thread: the topology is
    [{0: {c: {0: c} for c in range(n)}}]; the records are the [n] stale
    ones of the first loop followed by the [n] numbered ones of the
    second; socket 0 is added to [inumas] when it is not there yet. *)
Lemma fallback_exact st n :
  (0 ≤ n)%Z →
  topology (fallback_loops 1 n 1 st) = {[0%Z := fb_cores n]} ∧
  icpus (fallback_loops 1 n 1 st) =
    icpus st ++ (stale_cpu (cur_cpu st) <$> py_range 0 n) ++ (fresh_cpu <$> py_range 0 n) ∧
  inumas (fallback_loops 1 n 1 st) =
    inumas st ++ (if bool_decide (0%Z ∈ sockets st) then [] else [0%Z]) ∧
  num_cpus (fallback_loops 1 n 1 st) = num_cpus st.
Proof.
  intros Hn. destruct (first_start_fields st) as (Hi0 & Hc0 & Hn0 & Hs0 & Hu0).
  destruct (first_loop st n Hn) as ((M & HT & HM) & Hi & Hc & Hs & Hu & Hnc).
  set (st1 := fallback_first 1 n 1 (with_topo st ∅)) in *.
  assert (second_inv (set_cpu st1 0) n n (fallback_loops 1 n 1 st))
    as ((M' & HT' & HM') & Hi' & _ & _ & Hu' & Hnc').
  { unfold fallback_loops, fallback_second. fold st1. rewrite py_range_0_1. simpl.
    apply (fold_py_range_ind (second_inv (set_cpu st1 0) n)); [done| |].
    - unfold second_inv. simpl. split_and!; [|by rewrite app_nil_r|done..].
      exists M. split; [done|]. intros c. rewrite HM. repeat case_decide; done || lia.
    - intros k x Hk Hx. apply second_step; [done| |done]. simpl. by rewrite Hs. }
  simpl in Hi', Hu', Hnc'. split_and!.
  - rewrite HT'. f_equal. apply map_eq. intros c.
    rewrite HM', lookup_fb_cores by done. repeat case_decide; done || lia.
  - by rewrite Hi', Hi, Hi0, Hc0, app_assoc.
  - by rewrite Hu', Hu.
  - by rewrite Hnc', Hnc.
Qed.

End CpuFallback.
