(* ===== verification/CpuMethod.v ===== *)
(** * [inodes_get_inumas_icpus] as a whole: the detected topology

    The theorems of this file are about the method's result
    [inodes_get_inumas_icpus lines] on the lines of /proc/cpuinfo.  When
    some line is a "core id" line the scanned topology is kept (node.py
    line 234); the invariant [scan_wf] of [CpuTopology] then gives the
    numbering of hyperthreads, the agreement of [topology] with [icpus]
    and the node count.  The fallback of lines 236-284 is in
    [CpuFallback]. *)

From S2P Require Import Prelude PyStr LineRegex CpuTopology CpuFallback.
From Stdlib Require Import Ascii String.
Import LineRegex CpuTopology CpuFallback.

Module CpuMethod.

(** [processor] lines of the input: [self.num_cpus] counts them. *)
Definition processor_lines (lines : list string) : nat :=
  List.length (filter (λ l, is_Some (re_int re_processor l)) lines).

(** The number of the last "processor" line, [-1] when there is none:
    the value of the local [cpu] after the loop. *)
Definition last_processor (lines : list string) : Z :=
  default (-1)%Z (last (omap (re_int re_processor) lines)).

(** A "core id" line of the input, as [re_core] sees it. *)
Definition core_line (l : string) : Prop := is_Some (re_int re_core l).

#[export] Instance core_line_dec l : Decision (core_line l).
Proof. unfold core_line. apply _. Defined.

(** ** Lemmas on the scan *)

(** A "core id" line matches none of the patterns tried before [re_core]. *)
Lemma core_line_scan st l c : re_int re_core l = Some c → scan_line st l = on_core st c.
Proof.
  intros Hc. destruct (re_int_search _ _ _ Hc) as [g Hg].
  destruct (re_search_lits _ _ _ _ _ Hg) as [s' ->].
  unfold scan_line. rewrite Hc.
  assert (re_int re_processor ("core id" +:+ s')%string = None) as -> by (vm_compute; done).
  assert (re_search re_cpu_family ("core id" +:+ s')%string = None) as -> by (vm_compute; done).
  assert (re_search re_cpu_model ("core id" +:+ s')%string = None) as -> by (vm_compute; done).
  assert (re_int re_socket ("core id" +:+ s')%string = None) as -> by (vm_compute; done).
  done.
Qed.

Lemma scan_line_icpus st l : ∃ k, icpus (scan_line st l) = icpus st ++ k.
Proof.
  unfold scan_line. repeat case_match; simpl; try (exists []; by rewrite app_nil_r).
  eexists. done.
Qed.

Lemma scan_fold_icpus ls st : ∃ k, icpus (fold_left scan_line ls st) = icpus st ++ k.
Proof.
  revert st. induction ls as [|l ls IH]; intros st; simpl; [exists []; by rewrite app_nil_r|].
  destruct (scan_line_icpus st l) as [k1 Hk1]. destruct (IH (scan_line st l)) as [k2 Hk2].
  exists (k1 ++ k2). by rewrite Hk2, Hk1, app_assoc.
Qed.

Lemma core_line_icpus lines :
  Exists core_line lines → icpus (fold_left scan_line lines init_scan) ≠ [].
Proof.
  intros (l & Hl & [c Hc])%Exists_exists. apply list_elem_of_split in Hl as (l1 & l2 & ->).
  rewrite fold_left_app. simpl. rewrite (core_line_scan _ _ c Hc).
  destruct (scan_fold_icpus l2 (on_core (fold_left scan_line l1 init_scan) c)) as [k ->].
  simpl. rewrite <- app_assoc. by destruct (icpus _).
Qed.

Lemma wf_size_ne st : scan_wf st → icpus st ≠ [] → size (topology st) ≠ 0%nat.
Proof.
  intros Hwf Hne Hsz. destruct (icpus st) as [|i l] eqn:El; [done|].
  destruct (proj2 (wf_sockets _ _ _ Hwf (numa_node i))) as [m Hm].
  { exists i. rewrite El. split; [left | done]. }
  apply map_size_empty_iff in Hsz. rewrite Hsz, lookup_empty in Hm. done.
Qed.

(** On the main path the method returns the scanned state. *)
Lemma main_path lines :
  Exists core_line lines →
  inodes_get_inumas_icpus lines = result_of (fold_left scan_line lines init_scan).
Proof.
  intros Hex. unfold inodes_get_inumas_icpus. rewrite bool_decide_eq_false_2; [done|].
  apply wf_size_ne; [apply scan_all_wf | by apply core_line_icpus].
Qed.

(** The sockets of the topology are the sockets of the records. *)
Lemma wf_dom t tc l : topo_wf t tc l → dom t = list_to_set (numa_node <$> l).
Proof.
  intros Hwf. apply set_eq. intros s.
  rewrite elem_of_dom, elem_of_list_to_set, list_elem_of_fmap, (wf_sockets _ _ _ Hwf).
  naive_solver.
Qed.

Lemma scan_line_num_cpus st l :
  num_cpus (scan_line st l) = (num_cpus st + if decide (is_Some (re_int re_processor l)) then 1 else 0)%Z.
Proof.
  unfold scan_line. destruct (re_int re_processor l) eqn:Ep.
  - rewrite decide_True by eauto. done.
  - rewrite decide_False by (intros [? ?]; done). repeat case_match; simpl; lia.
Qed.

Lemma scan_fold_num_cpus ls st :
  num_cpus (fold_left scan_line ls st) = (num_cpus st + Z.of_nat (processor_lines ls))%Z.
Proof.
  revert st. induction ls as [|l ls IH]; intros st; simpl.
  { unfold processor_lines. rewrite filter_nil. simpl. lia. }
  unfold processor_lines. rewrite IH, scan_line_num_cpus, filter_cons.
  case_decide; simpl; fold (processor_lines ls); lia.
Qed.

Lemma scan_line_no_core st l :
  ¬ core_line l → topology (scan_line st l) = topology st ∧ icpus (scan_line st l) = icpus st.
Proof. intros Hl. unfold scan_line. repeat case_match; try done. exfalso. apply Hl. eexists. done. Qed.

Lemma scan_no_core lines :
  Forall (λ l, ¬ core_line l) lines →
  topology (fold_left scan_line lines init_scan) = ∅ ∧ icpus (fold_left scan_line lines init_scan) = [].
Proof.
  intros Hall. apply (fold_left_invariant (λ st, topology st = ∅ ∧ icpus st = [])); [|done].
  intros st l Hl [Ht Hi]. rewrite <- Ht, <- Hi. apply scan_line_no_core.
  by apply (proj1 (Forall_forall _ _) Hall).
Qed.

Lemma scan_cur_cpu lines : cur_cpu (fold_left scan_line lines init_scan) = last_processor lines.
Proof.
  induction lines as [|l lines IH] using rev_ind; [done|].
  rewrite fold_left_app. simpl. unfold last_processor. rewrite omap_app. simpl.
  unfold scan_line. destruct (re_int re_processor l) eqn:Ep.
  - by rewrite last_snoc.
  - rewrite app_nil_r. fold (last_processor lines). rewrite <- IH.
    repeat case_match; done.
Qed.

(** ** Sample inputs *)

Definition NL : string := String "010"%char EmptyString.
Definition TAB : string := String "009"%char EmptyString.

(** One block of /proc/cpuinfo as an x86 kernel prints it. *)
Definition cpuinfo_block (p s c : string) : list string :=
  [("processor" +:+ TAB +:+ ": " +:+ p +:+ NL);
   ("cpu family" +:+ TAB +:+ ": 6" +:+ NL);
   ("model name" +:+ TAB +:+ ": Intel(R) Xeon(R) CPU" +:+ NL);
   ("physical id" +:+ TAB +:+ ": " +:+ s +:+ NL);
   ("siblings" +:+ TAB +:+ ": 4" +:+ NL);
   ("core id" +:+ TAB +:+ TAB +:+ ": " +:+ c +:+ NL);
   NL]%string.

(** Two sockets of two cores of two hyperthreads, numbered as Linux does:
    the second hyperthreads come after all first ones. *)
Definition cpuinfo_2x2x2 : list string :=
  cpuinfo_block "0" "0" "0" ++ cpuinfo_block "1" "0" "1" ++
  cpuinfo_block "2" "1" "0" ++ cpuinfo_block "3" "1" "1" ++
  cpuinfo_block "4" "0" "0" ++ cpuinfo_block "5" "0" "1" ++
  cpuinfo_block "6" "1" "0" ++ cpuinfo_block "7" "1" "1".

(** Four processors and no topology lines, as some hypervisors print. *)
Definition cpuinfo_flat : list string :=
  [("processor" +:+ TAB +:+ ": 0" +:+ NL); ("processor" +:+ TAB +:+ ": 1" +:+ NL);
   ("processor" +:+ TAB +:+ ": 2" +:+ NL); ("processor" +:+ TAB +:+ ": 3" +:+ NL)]%string.

(** A guest that prints "core id" but no "physical id". *)
Definition cpuinfo_no_socket : list string :=
  [("processor" +:+ TAB +:+ ": 0" +:+ NL); ("core id" +:+ TAB +:+ ": 0" +:+ NL);
   ("processor" +:+ TAB +:+ ": 1" +:+ NL); ("core id" +:+ TAB +:+ ": 1" +:+ NL)]%string.

(** ** Properties of the method *)

(** C1: on the main path no two records share a (socket, core, thread)
    position, the topology maps exactly the positions of the records to
    their cpu numbers, and the hyperthreads of each core are numbered
    0, 1, 2, ... in the order of the file. *)
Theorem cpu_scan_consistent lines :
  Exists core_line lines →
  NoDup (cpu_key <$> r_icpus (inodes_get_inumas_icpus lines)) ∧
  (∀ s c th v, lookup3 (r_topology (inodes_get_inumas_icpus lines)) s c th = Some v ↔
     ∃ i, i ∈ r_icpus (inodes_get_inumas_icpus lines) ∧ cpu i = v ∧ cpu_key i = (s, c, th)) ∧
  (∀ s c, thread <$> cpus_at (r_icpus (inodes_get_inumas_icpus lines)) s c =
          seqZ 0 (Z.of_nat (cnt (r_icpus (inodes_get_inumas_icpus lines)) s c))).
Proof.
  intros Hex. rewrite main_path by done.
  destruct (scan_all_wf lines) as [Hth _ Hcell _ Hkey]. simpl.
  split_and!; [done| |done]. intros s c th v. rewrite Hcell. unfold cpu_key.
  split.
  - intros (i & Hi & Hv & Hs & Hc & Ht). exists i. by rewrite Hs, Hc, Ht.
  - intros (i & Hi & Hv & Heq). injection Heq as Hs Hc Ht. by exists i.
Qed.

(** C3: on the main path [self.num_nodes] is the number of distinct
    sockets of the returned records. *)
Theorem cpu_num_nodes lines :
  Exists core_line lines →
  r_num_nodes (inodes_get_inumas_icpus lines) =
  Z.of_nat (size (list_to_set (numa_node <$> r_icpus (inodes_get_inumas_icpus lines)) : gset Z)).
Proof.
  intros Hex. rewrite main_path by done. simpl.
  by rewrite <- size_dom, (wf_dom _ _ _ (scan_all_wf lines)).
Qed.

(** C7: [self.num_cpus] is the number of "processor" lines, on both paths. *)
Theorem cpu_num_cpus lines :
  r_num_cpus (inodes_get_inumas_icpus lines) = Z.of_nat (processor_lines lines).
Proof.
  assert (num_cpus (fold_left scan_line lines init_scan) = Z.of_nat (processor_lines lines))
    as Hn by (rewrite scan_fold_num_cpus; simpl; lia).
  unfold inodes_get_inumas_icpus. case_bool_decide; simpl; [|done].
  destruct (fallback_exact (fold_left scan_line lines init_scan)
              (num_cpus (fold_left scan_line lines init_scan))) as (_ & _ & _ & ->); lia.
Qed.

(** C2: without "core id" lines the method returns one node whose cores
    [0 .. n-1] each hold one thread numbered as the core, for [n]
    "processor" lines; the records are [n] copies carrying the number of
    the last processor, followed by the [n] numbered ones. *)
Theorem cpu_fallback lines :
  Forall (λ l, ¬ core_line l) lines →
  r_topology (inodes_get_inumas_icpus lines) =
    {[0%Z := fb_cores (Z.of_nat (processor_lines lines))]} ∧
  r_num_nodes (inodes_get_inumas_icpus lines) = 1%Z ∧
  r_icpus (inodes_get_inumas_icpus lines) =
    (stale_cpu (last_processor lines) <$> py_range 0 (Z.of_nat (processor_lines lines))) ++
    (fresh_cpu <$> py_range 0 (Z.of_nat (processor_lines lines))) ∧
  0%Z ∈ r_inumas (inodes_get_inumas_icpus lines).
Proof.
  intros Hall. destruct (scan_no_core lines Hall) as [Ht Hi].
  pose proof (scan_all_sock_wf lines) as [Hu _ _ _].
  unfold inodes_get_inumas_icpus. rewrite Ht, map_size_empty, bool_decide_eq_true_2 by done.
  destruct (fallback_exact (fold_left scan_line lines init_scan)
              (num_cpus (fold_left scan_line lines init_scan))) as (HT & HI & HU & _).
  { rewrite scan_fold_num_cpus. simpl. lia. }
  rewrite scan_fold_num_cpus in *. simpl in *. rewrite HT, HI, HU, Hi, scan_cur_cpu.
  split_and!; [done | by rewrite map_size_singleton | done |].
  case_bool_decide as H0; apply elem_of_app; [left; by rewrite Hu | right; by left].
Qed.

(** C6: on the main path [inumas] lists each socket of a "physical id"
    line once, and a record lies on one of them or on socket [-1], the
    value [socket_id] keeps when no "physical id" line precedes its
    "core id" line. *)
Theorem cpu_sockets lines :
  Exists core_line lines →
  NoDup (r_inumas (inodes_get_inumas_icpus lines)) ∧
  ∀ i, i ∈ r_icpus (inodes_get_inumas_icpus lines) →
       numa_node i ∈ r_inumas (inodes_get_inumas_icpus lines) ∨ numa_node i = (-1)%Z.
Proof.
  intros Hex. rewrite main_path by done.
  destruct (scan_all_sock_wf lines) as [Hu Hnd _ Hcpu]. simpl. rewrite Hu. done.
Qed.

(** ** Runs on the sample inputs (spec section 8, properties 2 and 3) *)

Example cpu_2x2x2_run :
  let r := inodes_get_inumas_icpus cpuinfo_2x2x2 in
  (r_num_cpus r, r_num_nodes r, r_inumas r,
   (λ i, (cpu i, numa_node i, core i, thread i)) <$> r_icpus r) =
  (8, 2, [0; 1], [(0, 0, 0, 0); (1, 0, 1, 0); (2, 1, 0, 0); (3, 1, 1, 0);
                  (4, 0, 0, 1); (5, 0, 1, 1); (6, 1, 0, 1); (7, 1, 1, 1)])%Z.
Proof. vm_compute. reflexivity. Qed.

Example cpu_2x2x2_attrs :
  (λ i, (cpu_family i, cpu_model i)) <$> r_icpus (inodes_get_inumas_icpus cpuinfo_2x2x2) =
  replicate 8 (Some "6", Some "Intel(R) Xeon(R) CPU")%string.
Proof. vm_compute. reflexivity. Qed.

Example cpu_flat_run :
  let r := inodes_get_inumas_icpus cpuinfo_flat in
  r_num_nodes r = 1%Z ∧ r_inumas r = [0%Z] ∧ r_topology r = {[0%Z := fb_cores 4]} ∧
  (λ i, (cpu i, core i)) <$> r_icpus r =
  [(3, 0); (3, 1); (3, 2); (3, 3); (0, 0); (1, 1); (2, 2); (3, 3)]%Z.
Proof. vm_compute. split_and!; reflexivity. Qed.

(** Without "physical id" lines the records lie on socket [-1], which
    [inumas] does not list, while [self.num_nodes] is 1. *)
Example cpu_no_socket_run :
  let r := inodes_get_inumas_icpus cpuinfo_no_socket in
  r_num_nodes r = 1%Z ∧ r_inumas r = [] ∧ numa_node <$> r_icpus r = [-1; -1]%Z.
Proof. vm_compute. split_and!; reflexivity. Qed.

(** ** Witnesses *)

Lemma cpu_scan_consistent_witness :
  Exists core_line cpuinfo_2x2x2 ∧
  NoDup (cpu_key <$> r_icpus (inodes_get_inumas_icpus cpuinfo_2x2x2)).
Proof.
  assert (Exists core_line cpuinfo_2x2x2) as H by vm_decide.
  split; [exact H | exact (proj1 (cpu_scan_consistent cpuinfo_2x2x2 H))].
Defined.

Lemma cpu_num_nodes_witness :
  r_num_nodes (inodes_get_inumas_icpus cpuinfo_2x2x2) =
  Z.of_nat (size (list_to_set (numa_node <$> r_icpus (inodes_get_inumas_icpus cpuinfo_2x2x2)) : gset Z)).
Proof. apply cpu_num_nodes. vm_decide. Defined.

Lemma cpu_fallback_witness :
  r_num_nodes (inodes_get_inumas_icpus cpuinfo_flat) = 1%Z.
Proof.
  assert (Forall (λ l, ¬ core_line l) cpuinfo_flat) as H by vm_decide.
  exact (proj1 (proj2 (cpu_fallback cpuinfo_flat H))).
Defined.

Lemma cpu_sockets_witness :
  NoDup (r_inumas (inodes_get_inumas_icpus cpuinfo_2x2x2)).
Proof.
  assert (Exists core_line cpuinfo_2x2x2) as H by vm_decide.
  exact (proj1 (cpu_sockets cpuinfo_2x2x2 H)).
Defined.

End CpuMethod.
