(* ===== verification/Host.v ===== *)
(** * The host: file system, external commands and platform settings

    node.py reads /proc and /sys files with [open], lists directories
    with [os.listdir], tests paths with [os.path], runs [cat] through
    [subprocess.check_output] and a shell pipeline through
    [subprocess.Popen], and reads [tsc.nodetype] and two marker paths of
    [tsconfig].  The class [Host] is that interface; every theorem about
    the memory scanners holds for any instance.  [fake_host] is an
    instance over finite maps, on which the concrete runs compute.

    Each failing primitive returns [None]; the wrappers below turn it
    into the exception Python 2.7 raises there. *)

From S2P Require Import Prelude PyStr.
From Stdlib Require Import Ascii String.

Module Host.

Class Host := {
  host_isfile : string → bool;                   (** [os.path.isfile] *)
  host_isdir : string → bool;                    (** [os.path.isdir] *)
  host_exists : string → bool;                   (** [os.path.exists] *)
  host_listdir : string → option (list string);  (** [os.listdir] *)
  host_read : string → option string;            (** [open(p, 'r')] and its text *)
  host_check_output : list string → option string;  (** [subprocess.check_output] *)
  host_popen : string → option string;           (** [Popen(cmd, shell=True).stdout.read()] *)
  host_nodetype : string;                        (** [tsc.nodetype] *)
  tsc_initial_compute_config_complete : string;  (** [tsc.INITIAL_COMPUTE_CONFIG_COMPLETE] *)
  tsc_volatile_compute_config_complete : string  (** [tsc.VOLATILE_COMPUTE_CONFIG_COMPLETE] *)
}.

(** The last character of a string. *)
Fixpoint str_last (s : string) : option ascii :=
  match s with
  | EmptyString => None
  | String c EmptyString => Some c
  | String _ r => str_last r
  end.

(** [os.path.join(a, b)] on POSIX paths ([posixpath.join]). *)
Definition path_join (a b : string) : string :=
  if str_startswith "/" b then b
  else if String.eqb a EmptyString || bool_decide (str_last a = Some "/"%char)
  then (a +:+ b)%string
  else (a +:+ "/" +:+ b)%string.

Section Ops.
Context `{!Host}.

(** [os.listdir(d)] *)
Definition listdir (d : string) : res (list string) :=
  match host_listdir d with Some l => Ok l | None => Raise OSError end.

(** [with open(p, 'r') as f: for line in f]: the lines of the file. *)
Definition open_lines (p : string) : res (list string) :=
  match host_read p with Some s => Ok (py_lines s) | None => Raise IOError end.

(** [with open(p, 'r') as f: f.readline()] *)
Definition open_readline (p : string) : res string :=
  match host_read p with Some s => Ok (readline s) | None => Raise IOError end.

(** [NodeOperator._get_immediate_subdirs] (lines 290-292). *)
Definition _get_immediate_subdirs (dir : string) : res (list string) :=
  names ← listdir dir;
  Ok (filter (λ name, host_isdir (path_join dir name) = true) names).

(** [NodeOperator._is_strict] (lines 110-121): [int(output)] is outside
    the handled exception, so a non-numeric output raises [ValueError]. *)
Definition _is_strict : res bool :=
  match host_check_output ["cat"; "/proc/sys/vm/overcommit_memory"]%string with
  | None => Ok false
  | Some output => n ← py_int output; Ok (bool_decide (n = 2%Z))
  end.

Lemma open_lines_exn p e : open_lines p = Raise e → e = IOError.
Proof. unfold open_lines. destruct (host_read p); congruence. Qed.

Lemma listdir_exn d e : listdir d = Raise e → e = OSError.
Proof. unfold listdir. destruct (host_listdir d); congruence. Qed.

End Ops.

(** ** A host given by finite maps *)

Record fake_fs := mk_fake_fs {
  fs_files : gmap string string;          (** regular files and their text *)
  fs_dirs : gmap string (list string);    (** directories and their entries *)
  fs_pss : option string;                 (** output of the PSS pipeline *)
  fs_nodetype : string
}.

(** [cat p] succeeds on a file and fails otherwise. *)
Definition fake_host (f : fake_fs) : Host := {|
  host_isfile p := bool_decide (is_Some (fs_files f !! p));
  host_isdir p := bool_decide (is_Some (fs_dirs f !! p));
  host_exists p := bool_decide (is_Some (fs_files f !! p) ∨ is_Some (fs_dirs f !! p));
  host_listdir p := fs_dirs f !! p;
  host_read p := fs_files f !! p;
  host_check_output args :=
    match args with ["cat"; p]%string => fs_files f !! p | _ => None end;
  host_popen _ := fs_pss f;
  host_nodetype := fs_nodetype f;
  tsc_initial_compute_config_complete := "/etc/platform/.initial_compute_config_complete";
  tsc_volatile_compute_config_complete := "/var/run/.compute_config_complete"
|}.

End Host.
