(* ===== verification/MemInfo.v ===== *)
(** * Per-node meminfo: /sys/devices/system/node/node<N>/meminfo

    node.py lines 396-446 (hugepage scanner) and 538-575 (non-hugepage
    scanner) read the node's meminfo file line by line with six anchored
    patterns.  Python 2.7 reads the unknown escapes [\M], [\F], [\C] and
    [\'] of these patterns as the plain characters M, F, C and ', while
    [\S] is the class of non-space characters.  So [\'Committed_AS:]
    requires a quote before "Committed_AS:", which the kernel never
    prints: [committed] stays 0 and the strict-overcommit free memory is
    [CommitLimit] itself ([strict_free_is_limit]).

    The patterns of one line are mutually exclusive
    ([node_fields_exclusive]), so the loops compute sums and last values
    field by field, whatever the order of the lines. *)

From S2P Require Import Prelude PyStr LineRegex Host.
From Stdlib Require Import Ascii String.
Import LineRegex Host.

Module MemInfo.

(** [^Node\s+\d+\s+] *)
Definition node_prefix : list atom := lits "Node" ++ [Run CSpace; Run CDigit; Run CSpace].

(** [^Node\s+\d+\s+<name>\s+(\d+)] *)
Definition re_node_field (name : list atom) : regex :=
  mk_regex (node_prefix ++ name ++ [Run CSpace]) CDigit.

Definition re_node_memtotal : regex := re_node_field (lits "MemTotal:").
Definition re_node_memfree : regex := re_node_field (lits "MemFree:").
Definition re_node_filepages : regex := re_node_field (lits "FilePages:").
(** [\SReclaimable:]: any non-space character, then "Reclaimable:". *)
Definition re_node_sreclaim : regex := re_node_field (One CNonSpace :: lits "Reclaimable:").
Definition re_node_commitlimit : regex := re_node_field (lits "CommitLimit:").
(** [\'Committed_AS:]: a quote, then "Committed_AS:". *)
Definition re_node_committed_as : regex := re_node_field (lits "'Committed_AS:").

(** "/sys/devices/system/node/node%d/meminfo" % node *)
Definition meminfo_path (node : Z) : string :=
  ("/sys/devices/system/node/node" +:+ pct_d node +:+ "/meminfo")%string.

(** ** The hugepage scanner's loop (lines 407-446) *)

Record hp_mem := mk_hp_mem { total_kb : Z; free_kb : Z; limit : Z; committed : Z }.

Definition hp_zero : hp_mem := mk_hp_mem 0 0 0 0.

Definition hp_meminfo_line (m : hp_mem) (line : string) : hp_mem :=
  match re_int re_node_memtotal line with
  | Some n => mk_hp_mem (total_kb m + n) (free_kb m) (limit m) (committed m)
  | None =>
  match re_int re_node_memfree line with
  | Some n => mk_hp_mem (total_kb m) (free_kb m + n) (limit m) (committed m)
  | None =>
  match re_int re_node_filepages line with
  | Some n => mk_hp_mem (total_kb m) (free_kb m + n) (limit m) (committed m)
  | None =>
  match re_int re_node_sreclaim line with
  | Some n => mk_hp_mem (total_kb m) (free_kb m + n) (limit m) (committed m)
  | None =>
  match re_int re_node_commitlimit line with
  | Some n => mk_hp_mem (total_kb m) (free_kb m) n (committed m)
  | None =>
  match re_int re_node_committed_as line with
  | Some n => mk_hp_mem (total_kb m) (free_kb m) (limit m) n
  | None => m
  end end end end end end.

Section WithHost.
Context `{!Host}.

(** Lines 407-446: an unreadable file leaves the four values at 0; in
    strict overcommit mode the free memory is [limit - committed]. *)
Definition node_meminfo_hp (node : Z) : res hp_mem :=
  match open_lines (meminfo_path node) return res hp_mem with
  | Ok lines =>
      let m := fold_left hp_meminfo_line lines hp_zero in
      s ← _is_strict;
      Ok (if (s : bool) then mk_hp_mem (total_kb m) (limit m - committed m) (limit m) (committed m)
          else m)
  | Raise IOError => Ok hp_zero
  | Raise e => Raise e
  end.

End WithHost.

(** ** The non-hugepage scanner's loop (lines 545-575) *)

(** [(total_mb, free_mb)] before the division by 1024: the sums are in kB. *)
Definition nh_meminfo_line (m : Z * Z) (line : string) : Z * Z :=
  match re_int re_node_memtotal line with
  | Some n => (m.1 + n, m.2)%Z
  | None =>
  match re_int re_node_memfree line with
  | Some n => (m.1, m.2 + n)%Z
  | None =>
  match re_int re_node_filepages line with
  | Some n => (m.1, m.2 + n)%Z
  | None =>
  match re_int re_node_sreclaim line with
  | Some n => (m.1, m.2 + n)%Z
  | None => m
  end end end end.

Section WithHost2.
Context `{!Host}.

(** Lines 545-575: [total_mb /= 1024] and [free_mb /= 1024] are floor
    divisions of Python 2 integers. *)
Definition node_meminfo_nh (node : Z) : res (Z * Z) :=
  let sums : res (Z * Z) :=
    match open_lines (meminfo_path node) with
    | Ok lines => Ok (fold_left nh_meminfo_line lines (0, 0)%Z)
    | Raise IOError => Ok (0, 0)%Z
    | Raise e => Raise e
    end in
  m ← sums; Ok (py2_div m.1 1024, py2_div m.2 1024)%Z.

End WithHost2.

(** ** The six patterns of one line are exclusive *)

(** The fields, in the order the code tries them. *)
Inductive field := FMemTotal | FMemFree | FFilePages | FSReclaim | FCommitLimit | FCommittedAS.

#[export] Instance field_eq_dec : EqDecision field.
Proof. solve_decision. Defined.

Definition field_re (f : field) : regex :=
  match f with
  | FMemTotal => re_node_memtotal
  | FMemFree => re_node_memfree
  | FFilePages => re_node_filepages
  | FSReclaim => re_node_sreclaim
  | FCommitLimit => re_node_commitlimit
  | FCommittedAS => re_node_committed_as
  end.

Lemma re_node_field_shape p x n :
  re_int (re_node_field p) x = Some n →
  ∃ r t, match_atoms node_prefix x = Some r ∧ match_atoms p r = Some t.
Proof.
  intros (g & Hg)%re_int_search. unfold re_search, re_node_field in Hg.
  cbn [re_prefix re_group] in Hg.
  rewrite !match_atoms_app in Hg.
  destruct (match_atoms node_prefix x) as [r|]; simpl in Hg; [|discriminate].
  rewrite match_atoms_app in Hg.
  destruct (match_atoms p r) as [t|] eqn:Ep; simpl in Hg; [|discriminate]. by exists r, t.
Qed.

Lemma lits_clash a b r t1 t2 :
  match_atoms (lits a) r = Some t1 → match_atoms (lits b) r = Some t2 →
  str_startswith a b || str_startswith b a = true.
Proof.
  rewrite <- (app_nil_r (lits a)), <- (app_nil_r (lits b)).
  intros (s1 & -> & _)%match_atoms_lits (s2 & Heq & _)%match_atoms_lits.
  destruct (str_startswith a b) eqn:Hab, (str_startswith b a) eqn:Hba; try done.
  exfalso. by apply (str_prefix_clash a b s1 s2).
Qed.

Lemma one_lits_clash k a d b r t1 t2 :
  match_atoms (One k :: lits a) r = Some t1 → match_atoms (lits (String d b)) r = Some t2 →
  str_startswith a b || str_startswith b a = true.
Proof.
  destruct r as [|c r]; [done|]. simpl. case_match; [|done]. intros H1.
  case_match; [|done]. apply (lits_clash _ _ _ _ _ H1).
Qed.

(** At most one of the six patterns matches a line. *)
Lemma node_fields_exclusive f g x :
  f ≠ g → is_Some (re_int (field_re f) x) → re_int (field_re g) x = None.
Proof.
  intros Hne [n Hn]. destruct (re_int (field_re g) x) as [m|] eqn:Hm; [exfalso|done].
  destruct f, g; try congruence; cbn [field_re] in Hn, Hm;
    apply re_node_field_shape in Hn as (r & t1 & Hr & H1);
    apply re_node_field_shape in Hm as (r' & t2 & Hr' & H2);
    rewrite Hr in Hr'; injection Hr' as <-;
    first [ pose proof (lits_clash _ _ _ _ _ H1 H2) as Hc
          | pose proof (one_lits_clash _ _ _ _ _ _ _ H1 H2) as Hc
          | pose proof (one_lits_clash _ _ _ _ _ _ _ H2 H1) as Hc ];
    vm_compute in Hc; discriminate.
Qed.

(** ** The loops compute sums and last values *)

(** The values a pattern reads from the lines, in order. *)
Definition vals (f : field) (lines : list string) : list Z := omap (re_int (field_re f)) lines.

(** The last value of a list, or [d] for the empty list. *)
Definition last_or (d : Z) (l : list Z) : Z := default d (last l).

Lemma vals_cons f x lines : vals f (x :: lines) = vals f [x] ++ vals f lines.
Proof. unfold vals. simpl. by destruct (re_int _ x). Qed.

Lemma last_or_app d l1 l2 : last_or d (l1 ++ l2) = last_or (last_or d l1) l2.
Proof.
  unfold last_or. destruct l2 as [|y l2] using rev_ind; [by rewrite app_nil_r|].
  by rewrite app_assoc, !last_snoc.
Qed.

(** Either no pattern matches a line, or exactly one does. *)
Lemma field_match_one x :
  (∀ f, re_int (field_re f) x = None) ∨
  ∃ f n, re_int (field_re f) x = Some n ∧ ∀ g, g ≠ f → re_int (field_re g) x = None.
Proof.
  set (all := [FMemTotal; FMemFree; FFilePages; FSReclaim; FCommitLimit; FCommittedAS]).
  assert (∀ f, f ∈ all) as Hall by (intros []; subst all; set_solver).
  destruct (decide (Exists (λ f, is_Some (re_int (field_re f) x)) all))
    as [(f & _ & [n Hn])%Exists_exists|Hno].
  - right. exists f, n. split; [done|]. intros g Hg. apply (node_fields_exclusive f); eauto.
  - left. intros f. destruct (re_int (field_re f) x) eqn:E; [|done]. exfalso.
    apply Hno, Exists_exists. exists f. eauto.
Qed.

Lemma vals_one f x :
  vals f [x] = match re_int (field_re f) x with Some n => [n] | None => [] end.
Proof. unfold vals. simpl. by destruct (re_int _ x). Qed.

(** Name the code's patterns by their field. *)
Ltac fold_fields :=
  change re_node_memtotal with (field_re FMemTotal);
  change re_node_memfree with (field_re FMemFree);
  change re_node_filepages with (field_re FFilePages);
  change re_node_sreclaim with (field_re FSReclaim);
  change re_node_commitlimit with (field_re FCommitLimit);
  change re_node_committed_as with (field_re FCommittedAS).

(** Rewrite the patterns of a line with [field_match_one], then compute. *)
Ltac one_line x :=
  destruct (field_match_one x) as [Hn | (f & n & Hf & Ho)];
  [ rewrite !Hn | destruct f; rewrite ?Hf, ?Ho by discriminate ];
  simpl; unfold last_or, zsum; simpl; f_equal; lia.

Lemma hp_meminfo_line_vals m x :
  hp_meminfo_line m x =
  mk_hp_mem (total_kb m + zsum (vals FMemTotal [x]))
    (free_kb m + zsum (vals FMemFree [x]) + zsum (vals FFilePages [x]) + zsum (vals FSReclaim [x]))
    (last_or (limit m) (vals FCommitLimit [x])) (last_or (committed m) (vals FCommittedAS [x])).
Proof. destruct m. unfold hp_meminfo_line. fold_fields. rewrite !vals_one. one_line x. Qed.

Lemma nh_meminfo_line_vals m x :
  nh_meminfo_line m x =
  (m.1 + zsum (vals FMemTotal [x]),
   m.2 + zsum (vals FMemFree [x]) + zsum (vals FFilePages [x]) + zsum (vals FSReclaim [x]))%Z.
Proof. destruct m. unfold nh_meminfo_line. fold_fields. rewrite !vals_one. one_line x. Qed.

Lemma hp_meminfo_fold lines m :
  fold_left hp_meminfo_line lines m =
  mk_hp_mem (total_kb m + zsum (vals FMemTotal lines))
    (free_kb m + zsum (vals FMemFree lines) + zsum (vals FFilePages lines)
       + zsum (vals FSReclaim lines))
    (last_or (limit m) (vals FCommitLimit lines)) (last_or (committed m) (vals FCommittedAS lines)).
Proof.
  revert m. induction lines as [|x l IH]; intros m; cbn [fold_left].
  - destruct m. unfold zsum, last_or. simpl. f_equal; lia.
  - rewrite IH, hp_meminfo_line_vals. cbn [total_kb free_kb limit committed].
    rewrite !(vals_cons _ x l), !zsum_app, !last_or_app. f_equal; lia.
Qed.

Lemma nh_meminfo_fold lines m :
  fold_left nh_meminfo_line lines m =
  (m.1 + zsum (vals FMemTotal lines),
   m.2 + zsum (vals FMemFree lines) + zsum (vals FFilePages lines) + zsum (vals FSReclaim lines))%Z.
Proof.
  revert m. induction lines as [|x l IH]; intros m; cbn [fold_left].
  - destruct m. unfold zsum. simpl. f_equal; lia.
  - rewrite IH, nh_meminfo_line_vals. cbn [fst snd].
    rewrite !(vals_cons _ x l), !zsum_app. f_equal; lia.
Qed.

(** A line read by the [Committed_AS] pattern contains a quote. *)
Lemma committed_as_quote l : is_Some (re_int re_node_committed_as l) → in_chars "'"%char l = true.
Proof.
  intros [n (r & t & Hr & Ht)%re_node_field_shape].
  apply match_atoms_suffix in Hr as (pre & ->).
  rewrite <- (app_nil_r (lits _)) in Ht. apply match_atoms_lits in Ht as (s' & -> & _).
  rewrite !in_chars_app. simpl. by destruct (in_chars _ pre).
Qed.

Lemma vals_committed_as_nil lines :
  Forall (λ l, in_chars "'"%char l = false) lines → vals FCommittedAS lines = [].
Proof.
  induction 1 as [|l lines Hl _ IH]; [done|]. rewrite vals_cons, IH, vals_one. cbn [field_re].
  destruct (re_int re_node_committed_as l) eqn:E; [|done].
  rewrite committed_as_quote in Hl by (rewrite E; eauto). done.
Qed.

(** The non-hugepage values of a node; the scanner never raises there. *)
Definition nh_values `{!Host} (node : Z) : Z * Z :=
  match node_meminfo_nh node with Ok v => v | Raise _ => (0, 0)%Z end.

Lemma node_meminfo_nh_values `{!Host} node : node_meminfo_nh node = Ok (nh_values node).
Proof.
  unfold nh_values, node_meminfo_nh. destruct (open_lines _) as [|e] eqn:E; [done|].
  by rewrite (open_lines_exn _ _ E).
Qed.

(** ** What the two loops compute *)

Section Spec.
Context `{!Host}.

(** C10: the non-hugepage scanner's node totals are the sums of the
    MemTotal values and of the MemFree, FilePages and SReclaimable values
    of the node's meminfo, in MB rounded down; an unreadable file gives
    0 and 0. *)
Theorem node_meminfo_nh_spec node :
  node_meminfo_nh node =
  match open_lines (meminfo_path node) with
  | Ok lines =>
      Ok (py2_div (zsum (vals FMemTotal lines)) 1024,
          py2_div (zsum (vals FMemFree lines) + zsum (vals FFilePages lines)
                   + zsum (vals FSReclaim lines)) 1024)
  | Raise _ => Ok (0, 0)%Z
  end.
Proof.
  unfold node_meminfo_nh. destruct (open_lines _) as [lines|e] eqn:E.
  - simpl. rewrite nh_meminfo_fold. simpl. do 3 f_equal; lia.
  - by rewrite (open_lines_exn _ _ E).
Qed.

(** C11: the hugepage scanner's node values: MemTotal summed into
    [total_kb], MemFree, FilePages and SReclaimable summed into
    [free_kb], the last CommitLimit and Committed_AS values, and in strict
    overcommit mode [free_kb = limit - committed]. *)
Theorem node_meminfo_hp_spec node :
  node_meminfo_hp node =
  match open_lines (meminfo_path node) with
  | Ok lines =>
      s ← _is_strict;
      let lim := last_or 0 (vals FCommitLimit lines) in
      let com := last_or 0 (vals FCommittedAS lines) in
      Ok (mk_hp_mem (zsum (vals FMemTotal lines))
            (if (s : bool) then lim - com
             else zsum (vals FMemFree lines) + zsum (vals FFilePages lines)
                  + zsum (vals FSReclaim lines)) lim com)
  | Raise _ => Ok hp_zero
  end.
Proof.
  unfold node_meminfo_hp. destruct (open_lines _) as [lines|e] eqn:E.
  - rewrite hp_meminfo_fold. simpl. destruct _is_strict as [[]|]; simpl; [done| |done].
    f_equal.
  - by rewrite (open_lines_exn _ _ E).
Qed.

(** C12: in strict overcommit mode the free memory the hugepage scanner
    uses is the CommitLimit value itself: the ['Committed_AS:] pattern
    never matches a meminfo line without a quote, so [committed] stays 0
    (node.py line 405; the spec expects CommitLimit - Committed_AS). *)
Theorem strict_free_is_limit node lines :
  open_lines (meminfo_path node) = Ok lines → _is_strict = Ok true →
  Forall (λ l, in_chars "'"%char l = false) lines →
  free_kb <$> node_meminfo_hp node = Ok (last_or 0 (vals FCommitLimit lines)).
Proof.
  intros Hopen Hs Hq. rewrite node_meminfo_hp_spec, Hopen, Hs. simpl.
  rewrite vals_committed_as_nil by done. unfold last_or at 2. simpl. f_equal. lia.
Qed.

End Spec.

(** ** A sample node *)

(** The meminfo of node 0 with the values of the spec's property 5. *)
Definition sample_meminfo : string :=
  str_join "010"%char
    ["Node 0 MemTotal:       16384000 kB"; "Node 0 MemFree:         8000000 kB";
     "Node 0 FilePages:       1000000 kB"; "Node 0 SReclaimable:     200000 kB";
     "Node 0 CommitLimit:        1000 kB"; "Node 0 Committed_AS:       400 kB"; ""]%string.

(** A host in strict overcommit mode ([vm.overcommit_memory = 2]). *)
Definition strict_host : Host :=
  fake_host (mk_fake_fs
    (<["/sys/devices/system/node/node0/meminfo" := sample_meminfo]>
       {["/proc/sys/vm/overcommit_memory" := "2"]})%string
    ∅ (Some "0") "compute").

(** Spec property 5: with CommitLimit 1000 and Committed_AS 400 the code
    reports 1000 kB free, not 600. *)
Example strict_commit_sample :
  free_kb <$> @node_meminfo_hp strict_host 0 = Ok 1000%Z.
Proof. vm_compute. reflexivity. Qed.

Example nonhuge_sample :
  @node_meminfo_nh strict_host 0 = Ok (16000, 8984)%Z.
Proof. vm_compute. reflexivity. Qed.

Lemma strict_free_is_limit_witness :
  free_kb <$> @node_meminfo_hp strict_host 0 = Ok 1000%Z.
Proof.
  apply (@strict_free_is_limit strict_host 0
           (py_lines sample_meminfo)); [reflexivity | reflexivity | vm_decide].
Defined.

End MemInfo.
