(* ===== verification/Hugepages.v ===== *)
(** * Hugepage memory scanner: [NodeOperator._inode_get_memory_hugepages]

    node.py lines 25-51 (constants) and 294-527.  For each node the
    method sums the configured and free hugepages of each size directory,
    carves the vswitch reservation out of them, reads the node's meminfo
    ([MemInfo]), estimates the PSS of all processes on node 0, reads the
    base reservation of compute_reserved.conf, clips it on small nodes,
    and reports the possible VM hugepages.  Before the initial compute
    configuration it reports 90% of the possible 2M pages instead; between
    that and the volatile configuration it reports nothing.

    The per-node locals [attr], [total_hp_mb] and [free_hp_mb] are the
    state of a [pyst] computation, since an [IOError] caught at line 391
    keeps what the loop stored before it.  Dictionary values are [pyval]s:
    Python ints, floats (the 90% of line 508 is a binary64 float, modelled
    with Rocq's primitive floats) and strings. *)

From S2P Require Import Prelude PyStr LineRegex Host MemInfo.
From Stdlib Require Import Ascii String PrimFloat SpecFloat FloatOps Uint63.
Import Host MemInfo.

Module Hugepages.

(** ** Constants (lines 25-51) *)

Definition VSWITCH_MEMORY_MB : Z := 1024.
Definition SIZE_KB : Z := 1024.
Definition SIZE_2M_KB : Z := 2048.
Definition SIZE_1G_KB : Z := 1048576.
Definition SIZE_2M_MB : Z := py2_div SIZE_2M_KB SIZE_KB.
Definition SIZE_1G_MB : Z := py2_div SIZE_1G_KB SIZE_KB.
Definition CONTROLLER_MIN_MB : Z := 6000.
Definition COMPUTE_MIN_MB : Z := 1600.
Definition COMPUTE_MIN_NON_0_MB : Z := 500.

(** ** Python values and dictionaries *)

Inductive pyval := PInt (z : Z) | PFloat (f : float) | PStr (s : string).

Abbreviation attr_dict := (gmap string pyval).

(** [d.update(u)] *)
Definition dict_update (d u : attr_dict) : attr_dict := u ∪ d.

(** [d.get(k, 0)] on a key that holds an int. *)
Definition get_int (d : attr_dict) (k : string) : Z :=
  match d !! k with Some (PInt z) => z | _ => 0 end.

(** [float(n)] for [|n| < 2^63]. *)
Definition z_to_float (z : Z) : float :=
  if (0 <=? z)%Z then of_uint63 (Uint63.of_Z z) else PrimFloat.opp (of_uint63 (Uint63.of_Z (Z.opp z))).

(** [int(x)] on a finite float: truncation toward zero. *)
Definition float_trunc (x : float) : Z :=
  match Prim2SF x with
  | S754_finite s m e =>
      let v := if (0 <=? e)%Z then (Z.pos m * 2 ^ e)%Z else (Z.pos m / 2 ^ (Z.opp e))%Z in
      if s then Z.opp v else v
  | _ => 0
  end.

(** ** One node's hugepage directories (lines 319-393) *)

(** The locals [attr], [total_hp_mb] and [free_hp_mb]. *)
Record hp_loc := mk_hp_loc { attr : attr_dict; total_hp_mb : Z; free_hp_mb : Z }.

Definition hp_loc0 : hp_loc := mk_hp_loc ∅ 0 0.

(** "/sys/devices/system/node/node%d/hugepages" % node *)
Definition hugepages_path (node : Z) : string :=
  ("/sys/devices/system/node/node" +:+ pct_d node +:+ "/hugepages")%string.

(** Lines 333-337: [subdir.split('-')[1]], which raises [IndexError]
    on a name without '-'. *)
Definition subdir_size (subdir : string) : res Z :=
  match str_split "-"%char subdir with
  | _ :: part :: _ => Ok (if str_startswith "1048576kB" part then SIZE_1G_MB else SIZE_2M_MB)
  | _ => Raise IndexError
  end.

(** Lines 357-387: the attributes one size directory contributes. *)
Definition hp_attr_of (size nr free : Z) (nsubdirs : nat) : attr_dict :=
  if bool_decide (size = SIZE_1G_MB) then
    let vnr := py2_div VSWITCH_MEMORY_MB size in
    {[ "vswitch_hugepages_size_mib" := PInt size;
       "vswitch_hugepages_nr" := PInt vnr;
       "vswitch_hugepages_avail" := PInt 0;
       "vm_hugepages_nr_1G" := PInt (nr - vnr);
       "vm_hugepages_avail_1G" := PInt free;
       "vm_hugepages_use_1G" := PStr "True" ]}
  else
    let '(hp_attr, vnr) :=
      if bool_decide (nsubdirs = 1%nat) then
        let vnr := py2_div VSWITCH_MEMORY_MB size in
        (dict_update
           {[ "vswitch_hugepages_size_mib" := PInt size;
              "vswitch_hugepages_nr" := PInt vnr;
              "vswitch_hugepages_avail" := PInt 0 ]}
           {[ "vm_hugepages_use_1G" := PStr "False" ]}, vnr)
      else (∅, 0%Z) in
    dict_update hp_attr
      {[ "vm_hugepages_avail_2M" := PInt free; "vm_hugepages_nr_2M" := PInt (nr - vnr) ]}%string.

Section WithHost.
Context `{!Host}.

(** Lines 347-352: the counts of the size directory's files. *)
Fixpoint read_counts (mydir : string) (files : list string) (nr free : Z) : res (Z * Z) :=
  match files with
  | [] => Ok (nr, free)
  | file :: fs =>
      line ← open_readline (mydir +:+ "/" +:+ file);
      nr' ← (if str_startswith "nr_hugepages" file then py_int line else Ok nr);
      free' ← (if str_startswith "free_hugepages" file then py_int line else Ok free);
      read_counts mydir fs nr' free'
  end.

(** Lines 332-389: one size directory. *)
Definition subdir_body (hugepages : string) (nsub : nat) (subdir : string) : pyst hp_loc unit :=
  size ← st_lift (subdir_size subdir);
  let mydir := (hugepages +:+ "/" +:+ subdir)%string in
  names ← st_lift (listdir mydir);
  let files := filter (λ f, host_isfile (path_join mydir f) = true) names in
  counts ← st_lift (read_counts mydir files 0 0);
  st_modify (λ l,
    mk_hp_loc (dict_update (attr l) (hp_attr_of size counts.1 counts.2 nsub))
      (total_hp_mb l + counts.1 * size) (free_hp_mb l + counts.2 * size)).

(** Lines 326-393: [except IOError: pass]; other exceptions, among them
    the [OSError] of a missing directory, leave the method. *)
Definition hugepage_accounting (node : Z) : pyst hp_loc unit :=
  let hugepages := hugepages_path node in
  try_except IOError (
    subdirs ← st_lift (_get_immediate_subdirs hugepages);
    py_for subdirs (subdir_body hugepages (List.length subdirs))).

End WithHost.

(** ** Base reservation (lines 468-488) *)

Definition DQ : string := String "034"%char EmptyString.
Definition NLs : string := String "010"%char EmptyString.

(** One entry of the list: [reserve.split(":")]; when its name is
    "node%d" the value is [int(reserve[1].strip('MB'))]. *)
Definition reserve_entry (node base : Z) (reserve : string) : res Z :=
  match str_split ":"%char reserve with
  | r0 :: rest =>
      if String.eqb (str_strip_chars DQ r0) ("node" +:+ pct_d node)%string then
        match rest with
        | r1 :: _ => py_int (str_strip_chars "MB" r1)
        | [] => Raise IndexError
        end
      else Ok base
  | [] => Ok base
  end.

(** One line of compute_reserved.conf (lines 472-478). *)
Definition reserve_line (node base : Z) (line : string) : res Z :=
  if str_contains "COMPUTE_BASE_RESERVED" line then
    match str_split "="%char line with
    | _ :: v1 :: _ =>
        let base_reserves := str_slice_1_m1 (str_strip_chars NLs v1) in
        fold_left (λ acc r, b ← acc; reserve_entry node b r) (str_split_ws base_reserves) (Ok base)
    | _ => Raise IndexError
    end
  else Ok base.

(** [base_mem_mb] after the loop of lines 470-478. *)
Definition base_mem_of (node : Z) (conf : list string) : res Z :=
  fold_left (λ acc l, b ← acc; reserve_line node b l) conf (Ok 0%Z).

(** Lines 482-488: clipping on small nodes. *)
Definition clip_base (node total_kb base : Z) (controller : bool) : Z :=
  if bool_decide (py2_div total_kb SIZE_KB - base < 1000)%Z then
    if bool_decide (node = 0%Z)
    then (COMPUTE_MIN_MB + if controller then CONTROLLER_MIN_MB else 0)%Z
    else COMPUTE_MIN_NON_0_MB
  else base.

(** ** PSS (lines 448-463) *)

Definition pss_cmd : string :=
  ("cat /proc/*/smaps 2>/dev/null | awk '/^Pss:/ {a += $2;} END {printf " +:+ DQ +:+
   "%d\n" +:+ DQ +:+ ", a/1024.0;}'")%string.

Section WithHost2.
Context `{!Host}.

(** Only node 0; a failing [Popen] ([OSError]) leaves 0, while a
    non-numeric output raises [ValueError] out of the method. *)
Definition node_pss (node : Z) : res Z :=
  if bool_decide (node = 0%Z) then
    match host_popen pss_cmd with
    | None => Ok 0%Z
    | Some out => py_int (str_strip out)
    end
  else Ok 0%Z.

(** The report of one node (lines 319-525). *)
Definition node_report (initial_report : bool) (node : Z) : res attr_dict :=
  let '(r, loc) := hugepage_accounting node hp_loc0 in
  _ ← r;
  m ← node_meminfo_hp node;
  pss_mb ← node_pss node;
  let node_total_kb := (total_hp_mb loc * SIZE_KB + free_kb m + pss_mb * SIZE_KB)%Z in
  conf ← open_lines "/etc/nova/compute_reserved.conf";
  base0 ← base_mem_of node conf;
  let base := clip_base node (total_kb m) base0 (String.eqb host_nodetype "controller") in
  let eng_kb := (node_total_kb - base * SIZE_KB)%Z in
  let vswitch_mem_kb := (get_int (attr loc) "vswitch_hugepages_size_mib" *
                         get_int (attr loc) "vswitch_hugepages_nr" * SIZE_KB)%Z in
  let vm_kb := (eng_kb - vswitch_mem_kb)%Z in
  let max2 := py2_div vm_kb SIZE_2M_KB in
  let max1 := py2_div vm_kb SIZE_1G_KB in
  let a := dict_update (attr loc)
             {[ "vm_hugepages_possible_2M" := PInt max2;
                "vm_hugepages_possible_1G" := PInt max1 ]}%string in
  let '(a, total, free) :=
    if initial_report then
      let max2f := (z_to_float max2 * 0x1.ccccccccccccdp-1)%float in
      let total := (total_hp_mb loc +
                    float_trunc (max2f * z_to_float (py2_div SIZE_2M_KB SIZE_KB))%float)%Z in
      (dict_update a {[ "vm_hugepages_nr_2M" := PFloat max2f;
                        "vm_hugepages_avail_2M" := PFloat max2f;
                        "vm_hugepages_nr_1G" := PInt 0 ]}%string, total, total)
    else (a, total_hp_mb loc, free_hp_mb loc) in
  Ok (dict_update a {[ "numa_node" := PInt node;
                       "memtotal_mib" := PInt total;
                       "memavail_mib" := PInt free;
                       "hugepages_configured" := PStr "True";
                       "node_memtotal_mib" := PInt (py2_div node_total_kb 1024) ]}%string).

(** [NodeOperator._inode_get_memory_hugepages] (lines 294-527), for the
    [self.num_nodes] of the object. *)
Definition _inode_get_memory_hugepages (num_nodes : Z) : res (list attr_dict) :=
  let initial_compute_config_completed := host_exists tsc_initial_compute_config_complete in
  let initial_report := negb initial_compute_config_completed in
  let compute_config_completed := host_exists tsc_volatile_compute_config_complete in
  if initial_compute_config_completed && negb compute_config_completed then Ok []
  else mapM (node_report initial_report) (py_range 0 num_nodes).

End WithHost2.

(** ** Lemmas *)

Lemma lookup_dict_update d u k :
  dict_update d u !! k = match u !! k with Some v => Some v | None => d !! k end.
Proof. unfold dict_update. rewrite lookup_union. by destruct (u !! k), (d !! k). Qed.

#[export] Hint Rewrite lookup_dict_update : metal_simp.

(** Compute lookups of literal keys in literal dictionaries. *)
Ltac dict_simpl :=
  repeat first
    [ rewrite lookup_dict_update
    | rewrite lookup_insert_eq
    | rewrite lookup_insert_ne by discriminate
    | rewrite lookup_singleton_eq
    | rewrite lookup_singleton_ne by discriminate
    | rewrite lookup_empty ]; cbn match.

Section Lemmas.
Context `{!Host}.

Lemma try_except_other (m : pyst hp_loc unit) e l l' :
  m l = (Raise e, l') → e ≠ IOError → try_except IOError m l = (Raise e, l').
Proof. intros Hm Hne. unfold try_except. rewrite Hm. by rewrite decide_False. Qed.

(** A missing hugepage directory: [os.listdir] raises [OSError], which
    [except IOError] does not catch. *)
Lemma accounting_no_dir node :
  host_listdir (hugepages_path node) = None →
  hugepage_accounting node hp_loc0 = (Raise OSError, hp_loc0).
Proof.
  intros Hd. unfold hugepage_accounting. apply try_except_other; [|done].
  unfold _get_immediate_subdirs, listdir. rewrite Hd. done.
Qed.

(** One 2M directory. *)
Lemma accounting_single_2M node d names nr free :
  let mydir := (hugepages_path node +:+ "/" +:+ d)%string in
  _get_immediate_subdirs (hugepages_path node) = Ok [d] →
  subdir_size d = Ok SIZE_2M_MB →
  listdir mydir = Ok names →
  read_counts mydir (filter (λ f, host_isfile (path_join mydir f) = true) names) 0 0 = Ok (nr, free) →
  hugepage_accounting node hp_loc0 =
  (Ok (), mk_hp_loc (hp_attr_of SIZE_2M_MB nr free 1) (nr * SIZE_2M_MB) (free * SIZE_2M_MB)).
Proof.
  intros mydir Hs Hsz Hl Hc. unfold hugepage_accounting, try_except.
  unfold mbind, pyst_bind, st_lift. rewrite Hs. simpl.
  unfold subdir_body, mbind, pyst_bind, st_lift, st_modify. rewrite Hsz. fold mydir.
  rewrite Hl, Hc. simpl. unfold dict_update. by rewrite map_union_empty.
Qed.

End Lemmas.

(** The attributes after the size directories [infos] (size, configured,
    free) of a node with [nsub] directories, as lines 331-389 store them. *)
Definition attrs_after (nsub : nat) (infos : list (Z * Z * Z)) : attr_dict :=
  fold_left (λ a '(size, nr, free), dict_update a (hp_attr_of size nr free nsub)) infos ∅.

Lemma get_int_update a u k :
  get_int (dict_update a u) k = match u !! k with Some v => get_int {[k := v]} k | None => get_int a k end.
Proof. unfold get_int. rewrite lookup_dict_update. destruct (u !! k); [by rewrite lookup_singleton_eq|done]. Qed.

(** The vswitch product of line 492, in MB. *)
Definition vswitch_mb (a : attr_dict) : Z :=
  (get_int a "vswitch_hugepages_size_mib" * get_int a "vswitch_hugepages_nr")%Z.

Lemma vswitch_mb_step a size nr free nsub :
  size = SIZE_2M_MB ∨ size = SIZE_1G_MB →
  vswitch_mb (dict_update a (hp_attr_of size nr free nsub)) =
  if bool_decide (size = SIZE_1G_MB ∨ nsub = 1%nat) then VSWITCH_MEMORY_MB else vswitch_mb a.
Proof.
  intros [-> | ->]; unfold vswitch_mb, hp_attr_of; rewrite !get_int_update.
  - rewrite bool_decide_eq_false_2 by done.
    destruct (decide (nsub = 1%nat)) as [->|Hn].
    + rewrite bool_decide_eq_true_2 by done. dict_simpl. rewrite bool_decide_eq_true_2 by auto.
      reflexivity.
    + rewrite bool_decide_eq_false_2 by done. dict_simpl.
      rewrite bool_decide_eq_false_2 by (intros [H|H]; [discriminate|done]). done.
  - rewrite bool_decide_eq_true_2 by done. dict_simpl.
    rewrite bool_decide_eq_true_2 by auto. reflexivity.
Qed.

Lemma vswitch_fold nsub infos :
  Forall (λ i : Z * Z * Z, i.1.1 = SIZE_2M_MB ∨ i.1.1 = SIZE_1G_MB) infos →
  vswitch_mb (fold_left (λ a '(size, nr, free), dict_update a (hp_attr_of size nr free nsub)) infos ∅) =
  if bool_decide (Exists (λ i : Z * Z * Z, i.1.1 = SIZE_1G_MB) infos ∨ (nsub = 1%nat ∧ infos ≠ []))
  then VSWITCH_MEMORY_MB else 0%Z.
Proof.
  induction infos as [|[[size nr] free] infos IH] using rev_ind; intros Hall.
  - rewrite bool_decide_eq_false_2; [done|]. intros [Hi%Exists_nil|[_ []]]; done.
  - apply Forall_app in Hall as [Hall Hx]. apply Forall_cons in Hx as [Hx _]. simpl in Hx.
    rewrite fold_left_app. simpl. rewrite vswitch_mb_step by done.
    destruct (decide (size = SIZE_1G_MB ∨ nsub = 1%nat)) as [Hc|Hc];
      [rewrite (bool_decide_eq_true_2 _ Hc) | rewrite (bool_decide_eq_false_2 _ Hc)].
    + rewrite bool_decide_eq_true_2; [done|].
      destruct Hc as [Hc|Hc]; [left | right].
      * apply Exists_app. right. by constructor.
      * split; [done|]. by destruct infos.
    + rewrite IH by done. apply if_bool_decide_iff. rewrite Exists_app, Exists_cons, Exists_nil.
      split.
      * intros [H|[Hn Hne]]; [left; by left|exfalso; auto].
      * intros [[H|[H|[]]]|[Hn Hne]]; [by left|exfalso; auto|exfalso; auto].
Qed.

(** ** Properties of the hugepage scanner *)

Section Props.
Context `{!Host}.

(** C13: spec property 4.  A node whose only hugepage directory holds 2M
    pages, [nr] of them configured and [free] free, reports a vswitch
    reservation of 512 pages and [nr - 512] pages for VMs, and [2 nr] and
    [2 free] MB of hugepage memory, once the initial configuration is
    done. *)
Theorem hugepages_2M_only node d names nr free a :
  let mydir := (hugepages_path node +:+ "/" +:+ d)%string in
  _get_immediate_subdirs (hugepages_path node) = Ok [d] →
  subdir_size d = Ok SIZE_2M_MB →
  listdir mydir = Ok names →
  read_counts mydir (filter (λ f, host_isfile (path_join mydir f) = true) names) 0 0 = Ok (nr, free) →
  node_report false node = Ok a →
  a !! "vswitch_hugepages_nr" = Some (PInt 512) ∧
  a !! "vm_hugepages_nr_2M" = Some (PInt (nr - 512)) ∧
  a !! "memtotal_mib" = Some (PInt (2 * nr)) ∧
  a !! "memavail_mib" = Some (PInt (2 * free)).
Proof.
  intros mydir Hs Hsz Hl Hc Hr. unfold node_report in Hr.
  rewrite (accounting_single_2M node d names nr free Hs Hsz Hl Hc) in Hr. simpl in Hr.
  inv_ok. subst a. unfold hp_attr_of. rewrite bool_decide_eq_false_2 by done.
  rewrite bool_decide_eq_true_2 by done. dict_simpl.
  replace (py2_div VSWITCH_MEMORY_MB SIZE_2M_MB) with 512%Z by reflexivity.
  replace SIZE_2M_MB with 2%Z by reflexivity.
  split_and!; try done; do 2 f_equal; lia.
Qed.

(** C14: spec property 7.  After the initial compute configuration and
    before the volatile one, the method reports no node at all. *)
Theorem hugepages_suppressed num_nodes :
  host_exists tsc_initial_compute_config_complete = true →
  host_exists tsc_volatile_compute_config_complete = false →
  _inode_get_memory_hugepages num_nodes = Ok [].
Proof. intros Hi Hv. unfold _inode_get_memory_hugepages. by rewrite Hi, Hv. Qed.

(** C15: before the initial compute configuration every node reports no
    configured 1G pages and as much available as total hugepage memory. *)
Theorem initial_report_shape node a :
  node_report true node = Ok a →
  a !! "vm_hugepages_nr_1G" = Some (PInt 0) ∧ a !! "memavail_mib" = a !! "memtotal_mib".
Proof.
  intros Hr. unfold node_report in Hr. destruct (hugepage_accounting node hp_loc0) as [r loc].
  simpl in Hr. inv_ok. subst a. dict_simpl. done.
Qed.

(** C16: a node without its hugepages directory makes the whole method
    raise [OSError] (Python 2: [os.listdir] raises [OSError], and the
    handler catches [IOError] only), unless the report is suppressed. *)
Theorem hugepages_missing_dir num_nodes :
  (0 < num_nodes)%Z →
  host_listdir (hugepages_path 0) = None →
  ¬ (host_exists tsc_initial_compute_config_complete = true ∧
     host_exists tsc_volatile_compute_config_complete = false) →
  _inode_get_memory_hugepages num_nodes = Raise OSError.
Proof.
  intros Hn Hd Hs. unfold _inode_get_memory_hugepages.
  destruct (host_exists tsc_initial_compute_config_complete),
    (host_exists tsc_volatile_compute_config_complete); simpl; try (exfalso; by apply Hs).
  all: rewrite (py_range_cons_0 num_nodes) by lia; simpl;
       unfold node_report; rewrite accounting_no_dir by done; done.
Qed.

(** C21: the vswitch reservation that line 492 subtracts is exactly
    [VSWITCH_MEMORY_MB] (1024 MB) when the node has 1G pages or a single
    hugepage size, and nothing otherwise: with both sizes the 2M pool
    reserves nothing and the 1G pages carry the reservation. *)
Theorem vswitch_reservation infos :
  Forall (λ i : Z * Z * Z, i.1.1 = SIZE_2M_MB ∨ i.1.1 = SIZE_1G_MB) infos →
  vswitch_mb (attrs_after (List.length infos) infos) =
  if bool_decide (Exists (λ i : Z * Z * Z, i.1.1 = SIZE_1G_MB) infos ∨ List.length infos = 1%nat)
  then VSWITCH_MEMORY_MB else 0%Z.
Proof.
  intros Hall. unfold attrs_after. rewrite (vswitch_fold _ _ Hall).
  apply if_bool_decide_iff. split; intros [Hc|Hc]; auto. destruct Hc as [Hc _]. by right.
  right. split; [done|]. intros ->. done.
Qed.

End Props.

(** ** Sample hosts *)

Definition hp0 : string := hugepages_path 0.
Definition hp0_2M : string := (hp0 +:+ "/hugepages-2048kB")%string.

(** Node 0 with 1100 configured and 1000 free 2M pages, as in the spec's
    property 4, after both configuration markers. *)
Definition sample_fs : fake_fs :=
  mk_fake_fs
    (<[hp0_2M +:+ "/nr_hugepages" := "1100" +:+ NLs]>
     (<[hp0_2M +:+ "/free_hugepages" := "1000" +:+ NLs]>
     (<["/sys/devices/system/node/node0/meminfo" := sample_meminfo]>
     (<["/etc/nova/compute_reserved.conf" :=
          "COMPUTE_BASE_RESERVED=(" +:+ DQ +:+ "node0:8000MB:1" +:+ DQ +:+ ")" +:+ NLs]>
     (<["/etc/platform/.initial_compute_config_complete" := ""]>
     (<["/var/run/.compute_config_complete" := ""]>
      {["/proc/sys/vm/overcommit_memory" := "0" +:+ NLs]}))))))%string
    (<[hp0 := ["hugepages-2048kB"]]> {[hp0_2M := ["nr_hugepages"; "free_hugepages"]]})%string
    (Some ("1000" +:+ NLs)%string) "controller".

Definition sample_host : Host := fake_host sample_fs.

(** The same host before the initial configuration. *)
Definition initial_host : Host :=
  fake_host (mk_fake_fs (delete "/etc/platform/.initial_compute_config_complete" (fs_files sample_fs))
               (fs_dirs sample_fs) (fs_pss sample_fs) (fs_nodetype sample_fs)).

(** The same host rebooting: the volatile marker is gone. *)
Definition rebooting_host : Host :=
  fake_host (mk_fake_fs (delete "/var/run/.compute_config_complete" (fs_files sample_fs))
               (fs_dirs sample_fs) (fs_pss sample_fs) (fs_nodetype sample_fs)).

(** The same host without hugepage directories. *)
Definition nohuge_host : Host :=
  fake_host (mk_fake_fs (fs_files sample_fs) ∅ (fs_pss sample_fs) (fs_nodetype sample_fs)).

Example sample_report :
  (λ l : list attr_dict, (λ a : attr_dict,
     (a !! "vswitch_hugepages_nr", a !! "vm_hugepages_nr_2M", a !! "vm_hugepages_possible_2M",
      a !! "memtotal_mib", a !! "node_memtotal_mib")) <$> l)
    <$> @_inode_get_memory_hugepages sample_host 1 =
  Ok [(Some (PInt 512), Some (PInt 588), Some (PInt 1580), Some (PInt 2200), Some (PInt 12184))]%string.
Proof. vm_compute. reflexivity. Qed.

(** The initial report: 90% of 1580 possible pages, as a float. *)
Example initial_sample_report :
  (λ l : list attr_dict, (λ a : attr_dict,
     (a !! "vm_hugepages_nr_2M", a !! "memtotal_mib", a !! "memavail_mib")) <$> l)
    <$> @_inode_get_memory_hugepages initial_host 1 =
  Ok [(Some (PFloat 1422), Some (PInt 5044), Some (PInt 5044))]%string.
Proof. vm_compute. reflexivity. Qed.

(** compute_reserved.conf as StarlingX writes it: one entry per node. *)
Example reserved_platform_format :
  base_mem_of 1 ["COMPUTE_BASE_RESERVED=(" +:+ DQ +:+ "node0:8000MB:1" +:+ DQ +:+ " " +:+
                 DQ +:+ "node1:2000MB:1" +:+ DQ +:+ ")" +:+ NLs]%string = Ok 2000%Z.
Proof. vm_compute. reflexivity. Qed.

(** The format the spec describes, "node0":"8000MB", raises [ValueError]:
    [strip('MB')] leaves the quotes around the number. *)
Example reserved_spec_format :
  base_mem_of 0 ["COMPUTE_BASE_RESERVED=(" +:+ DQ +:+ "node0" +:+ DQ +:+ ":" +:+
                 DQ +:+ "8000MB" +:+ DQ +:+ ")" +:+ NLs]%string = Raise ValueError.
Proof. vm_compute. reflexivity. Qed.

(** ** Witnesses *)

(** The report of node 0 of [sample_host]. *)
Definition sample_attr : attr_dict :=
  match @node_report sample_host false 0 with Ok a => a | Raise _ => ∅ end.

Definition initial_attr : attr_dict :=
  match @node_report initial_host true 0 with Ok a => a | Raise _ => ∅ end.

Lemma hugepages_2M_only_witness :
  sample_attr !! "vswitch_hugepages_nr" = Some (PInt 512) ∧
  sample_attr !! "vm_hugepages_nr_2M" = Some (PInt (1100 - 512)).
Proof.
  assert (@node_report sample_host false 0 = Ok sample_attr) as E by vm_refl.
  destruct (@hugepages_2M_only sample_host 0 "hugepages-2048kB" ["nr_hugepages"; "free_hugepages"]
              1100 1000 sample_attr) as (H1 & H2 & _);
    [vm_compute; reflexivity..|exact E|].
  split; [exact H1 | exact H2].
Defined.

Lemma hugepages_suppressed_witness : @_inode_get_memory_hugepages rebooting_host 1 = Ok [].
Proof. apply hugepages_suppressed; vm_compute; reflexivity. Defined.

Lemma initial_report_shape_witness : initial_attr !! "vm_hugepages_nr_1G" = Some (PInt 0).
Proof.
  assert (@node_report initial_host true 0 = Ok initial_attr) as E by vm_refl.
  exact (proj1 (@initial_report_shape initial_host 0 initial_attr E)).
Defined.

Lemma hugepages_missing_dir_witness : @_inode_get_memory_hugepages nohuge_host 1 = Raise OSError.
Proof.
  apply hugepages_missing_dir; [lia | vm_compute; reflexivity | vm_compute; intros [? ?]; discriminate].
Defined.

Lemma vswitch_reservation_witness :
  vswitch_mb (attrs_after (List.length [(SIZE_1G_MB, 4, 4); (SIZE_2M_MB, 1100, 1000)]%Z)
                          [(SIZE_1G_MB, 4, 4); (SIZE_2M_MB, 1100, 1000)]%Z) =
  if bool_decide (Exists (λ i : Z * Z * Z, i.1.1 = SIZE_1G_MB) [(SIZE_1G_MB, 4, 4); (SIZE_2M_MB, 1100, 1000)]%Z
                  ∨ List.length [(SIZE_1G_MB, 4, 4); (SIZE_2M_MB, 1100, 1000)]%Z = 1%nat)
  then VSWITCH_MEMORY_MB else 0%Z.
Proof. apply vswitch_reservation. vm_decide. Defined.

(** Both sizes: the 1G directory carries the reservation, the 2M pool
    gives all its pages to VMs. *)
Example both_sizes_sample :
  let a := attrs_after 2 [(SIZE_1G_MB, 4, 4); (SIZE_2M_MB, 1100, 1000)]%Z in
  (vswitch_mb a, a !! "vswitch_hugepages_nr", a !! "vm_hugepages_nr_1G", a !! "vm_hugepages_nr_2M") =
  (1024, Some (PInt 1), Some (PInt 3), Some (PInt 1100))%Z.
Proof. vm_compute. reflexivity. Qed.

End Hugepages.
