(* ===== verification/NodeOperator.v ===== *)
(** * The [NodeOperator] object and its memory facade

    node.py lines 90-108 ([__init__]), 138-151 (the fields
    [inodes_get_inumas_icpus] resets and sets), 529-586
    ([_inode_get_memory_nonhugepages]) and 588-608
    ([inodes_get_imemory]).  The object is a record; its methods are
    [pyst] computations on it, so a field assigned before an exception
    keeps its value, and the memory scanners read the [num_nodes] that the
    CPU scan stored. *)

From S2P Require Import Prelude PyStr LineRegex CpuTopology CpuMethod Host MemInfo Hugepages.
From Stdlib Require Import Ascii String.
Import Host MemInfo Hugepages.

Module NodeOperator.

Record node_operator := mk_node_operator {
  num_cpus : Z;
  num_nodes : Z;
  float_cpuset : Z;
  total_memory_mb : Z;
  free_memory_mb : Z;
  total_memory_nodes_mb : list Z;
  free_memory_nodes_mb : list Z;
  topology : CpuTopology.topo
}.

(** [NodeOperator.__init__] (lines 93-102). *)
Definition init_node_operator : node_operator := mk_node_operator 0 0 0 0 0 [] [] ∅.

Definition set_cpu_fields (o : node_operator) (nc nn : Z) (t : CpuTopology.topo) : node_operator :=
  mk_node_operator nc nn (float_cpuset o) (total_memory_mb o) (free_memory_mb o)
    (total_memory_nodes_mb o) (free_memory_nodes_mb o) t.

Section WithHost.
Context `{!Host}.

(** [inodes_get_inumas_icpus] on the object (lines 149-165 and 288): the
    three fields are reset before /proc/cpuinfo is opened, so an
    [IOError] leaves them at 0. *)
Definition op_inodes_get_inumas_icpus : pyst node_operator (list Z * list CpuTopology.CPU) :=
  _ ← st_modify (λ o, set_cpu_fields o 0 0 ∅);
  lines ← st_lift (open_lines "/proc/cpuinfo");
  let r := CpuTopology.inodes_get_inumas_icpus lines in
  _ ← st_modify (λ o, set_cpu_fields o (CpuTopology.r_num_cpus r) (CpuTopology.r_num_nodes r)
                                      (CpuTopology.r_topology r));
  mret (CpuTopology.r_inumas r, CpuTopology.r_icpus r).

(** [self.total_memory_nodes_mb.append(total_mb)] (line 576) *)
Definition add_node_total (o : node_operator) (v : Z) : node_operator :=
  mk_node_operator (num_cpus o) (num_nodes o) (float_cpuset o) (total_memory_mb o)
    (free_memory_mb o) (total_memory_nodes_mb o ++ [v]) (free_memory_nodes_mb o) (topology o).

(** [self.total_memory_mb = 0] (line 536) *)
Definition reset_total_memory (o : node_operator) : node_operator :=
  mk_node_operator (num_cpus o) (num_nodes o) (float_cpuset o) 0 (free_memory_mb o)
    (total_memory_nodes_mb o) (free_memory_nodes_mb o) (topology o).

(** One entry of the non-hugepage report (lines 577-582). *)
Definition nonhuge_attr (node total_mb free_mb : Z) : attr_dict :=
  {[ "numa_node" := PInt node; "memtotal_mib" := PInt total_mb;
     "memavail_mib" := PInt free_mb; "hugepages_configured" := PStr "False" ]}%string.

(** The body of the loop of lines 543-584. *)
Definition nonhuge_node (node : Z) : pyst node_operator attr_dict :=
  m ← st_lift (node_meminfo_nh node);
  _ ← st_modify (λ o, add_node_total o m.1);
  mret (nonhuge_attr node m.1 m.2).

Fixpoint py_map {S A B} (l : list A) (body : A → pyst S B) : pyst S (list B) :=
  match l with
  | [] => mret []
  | x :: l' => b ← body x; bs ← py_map l' body; mret (b :: bs)
  end.

(** [NodeOperator._inode_get_memory_nonhugepages] (lines 529-586). *)
Definition _inode_get_memory_nonhugepages : pyst node_operator (list attr_dict) :=
  _ ← st_modify reset_total_memory;
  o ← st_get;
  py_map (py_range 0 (num_nodes o)) nonhuge_node.

(** [NodeOperator.inodes_get_imemory] (lines 588-608). *)
Definition inodes_get_imemory : pyst node_operator (list attr_dict) :=
  if host_isfile "/etc/nova/compute_reserved.conf" then
    o ← st_get; st_lift (_inode_get_memory_hugepages (num_nodes o))
  else _inode_get_memory_nonhugepages.

End WithHost.

(** ** Lemmas *)

Section Lemmas.
Context `{!Host}.

Lemma py_map_total {S A B} (l : list A) (body : A → pyst S B) (f : A → B) (g : A → S → S) s :
  (∀ x s, body x s = (Ok (f x), g x s)) →
  py_map l body s = (Ok (f <$> l), fold_left (λ s x, g x s) l s).
Proof.
  intros Hb. revert s. induction l as [|x l IH]; intros s; [done|].
  simpl. unfold mbind, pyst_bind. rewrite Hb, IH. done.
Qed.

Lemma nonhuge_run o :
  _inode_get_memory_nonhugepages o =
  (Ok ((λ n, nonhuge_attr n (nh_values n).1 (nh_values n).2) <$> py_range 0 (num_nodes o)),
   fold_left (λ o n, add_node_total o (nh_values n).1) (py_range 0 (num_nodes o))
     (reset_total_memory o)).
Proof.
  unfold _inode_get_memory_nonhugepages. simpl. unfold mbind, pyst_bind, st_modify, st_get. simpl.
  apply py_map_total. intros x s. unfold nonhuge_node, mbind, pyst_bind, st_lift, st_modify.
  simpl. by rewrite node_meminfo_nh_values.
Qed.

Lemma fold_add_node_total (f : Z → Z) l o :
  let o' := fold_left (λ o n, add_node_total o (f n)) l o in
  total_memory_nodes_mb o' = total_memory_nodes_mb o ++ (f <$> l) ∧
  num_nodes o' = num_nodes o ∧ num_cpus o' = num_cpus o ∧ topology o' = topology o.
Proof.
  revert o. induction l as [|x l IH]; intros o; simpl; [by rewrite app_nil_r|].
  destruct (IH (add_node_total o (f x))) as (-> & -> & -> & ->). simpl.
  by rewrite <- app_assoc.
Qed.

End Lemmas.

(** ** Properties of the object *)

Section Props.
Context `{!Host}.

(** C17: without compute_reserved.conf the memory report lists nodes
    [0 .. num_nodes-1] with the non-hugepage totals of each, and every
    call appends those totals to [self.total_memory_nodes_mb], which is
    never reset: the field grows with each report. *)
Theorem nonhuge_report o :
  host_isfile "/etc/nova/compute_reserved.conf" = false →
  (inodes_get_imemory o).1 =
    Ok ((λ n, nonhuge_attr n (nh_values n).1 (nh_values n).2) <$> py_range 0 (num_nodes o)) ∧
  total_memory_nodes_mb (inodes_get_imemory o).2 =
    total_memory_nodes_mb o ++ ((λ n, (nh_values n).1) <$> py_range 0 (num_nodes o)).
Proof.
  intros Hf. unfold inodes_get_imemory. rewrite Hf, nonhuge_run. simpl. split; [done|].
  by destruct (fold_add_node_total (λ n, (nh_values n).1) (py_range 0 (num_nodes o))
                 (reset_total_memory o)) as (-> & _).
Qed.

(** C18: the memory report that follows the CPU scan covers exactly the
    NUMA nodes of the CPU records that scan returned: on a cpuinfo with
    "core id" lines and without compute_reserved.conf, it has one entry
    per distinct [numa_node] of the records, numbered from 0. *)
Theorem cpu_then_memory o text inumas icpus o' :
  host_read "/proc/cpuinfo" = Some text →
  Exists CpuMethod.core_line (py_lines text) →
  host_isfile "/etc/nova/compute_reserved.conf" = false →
  op_inodes_get_inumas_icpus o = (Ok (inumas, icpus), o') →
  (inodes_get_imemory o').1 =
    Ok ((λ n, nonhuge_attr n (nh_values n).1 (nh_values n).2) <$>
        py_range 0 (Z.of_nat (size (list_to_set (CpuTopology.numa_node <$> icpus) : gset Z)))).
Proof.
  intros Hr Hex Hf. unfold op_inodes_get_inumas_icpus, mbind, pyst_bind, st_modify, st_lift, open_lines.
  rewrite Hr. simpl. intros [= <- <- <-]. unfold inodes_get_imemory. rewrite Hf, nonhuge_run. simpl.
  rewrite CpuMethod.main_path by done. simpl.
  by rewrite <- size_dom, (CpuMethod.wf_dom _ _ _ (CpuTopology.scan_all_wf _)).
Qed.

(** C19: when /proc/cpuinfo cannot be opened the method raises [IOError]
    after resetting [num_cpus], [num_nodes] and [topology]. *)
Theorem cpuinfo_unreadable o :
  host_read "/proc/cpuinfo" = None →
  op_inodes_get_inumas_icpus o = (Raise IOError, set_cpu_fields o 0 0 ∅).
Proof.
  intros Hr. unfold op_inodes_get_inumas_icpus, mbind, pyst_bind, st_modify, st_lift, open_lines.
  by rewrite Hr.
Qed.

End Props.

(** ** Sample runs *)

(** A two-socket host without compute_reserved.conf: the cpuinfo of
    [CpuMethod.cpuinfo_2x2x2] and the meminfo of [MemInfo.sample_meminfo]
    on both nodes. *)
Definition cpu_host : Host :=
  fake_host (mk_fake_fs
    (<["/proc/cpuinfo" := String.concat "" CpuMethod.cpuinfo_2x2x2]>
     (<["/sys/devices/system/node/node0/meminfo" := sample_meminfo]>
      {["/sys/devices/system/node/node1/meminfo" := sample_meminfo]}))%string
    ∅ None "compute").

Example cpu_then_memory_sample :
  (λ l : list attr_dict, (λ a : attr_dict, (a !! "numa_node", a !! "memtotal_mib")) <$> l)
  <$> (@inodes_get_imemory cpu_host (@op_inodes_get_inumas_icpus cpu_host init_node_operator).2).1
  = Ok [(Some (PInt 0), Some (PInt 16000)); (Some (PInt 1), Some (PInt 16000))]%string.
Proof. vm_compute. reflexivity. Qed.

(** Two reports in a row: the same list, and the totals listed twice. *)
Example nonhuge_twice :
  let o1 := (@op_inodes_get_inumas_icpus cpu_host init_node_operator).2 in
  let o2 := (@inodes_get_imemory cpu_host o1).2 in
  total_memory_nodes_mb (@inodes_get_imemory cpu_host o2).2 = [16000; 16000; 16000; 16000]%Z.
Proof. vm_compute. reflexivity. Qed.

(** ** Witnesses *)

Lemma nonhuge_report_witness :
  total_memory_nodes_mb (@inodes_get_imemory cpu_host (set_cpu_fields init_node_operator 0 2 ∅)).2 =
  [] ++ ((λ n, (@nh_values cpu_host n).1) <$> py_range 0 2).
Proof.
  exact (proj2 (@nonhuge_report cpu_host (set_cpu_fields init_node_operator 0 2 ∅)
                  ltac:(vm_compute; reflexivity))).
Defined.

Lemma cpu_then_memory_witness :
  match @op_inodes_get_inumas_icpus cpu_host init_node_operator with
  | (Ok (_, icpus), o') =>
      (@inodes_get_imemory cpu_host o').1 =
        Ok ((λ n, nonhuge_attr n (@nh_values cpu_host n).1 (@nh_values cpu_host n).2) <$>
            py_range 0 (Z.of_nat (size (list_to_set (CpuTopology.numa_node <$> icpus) : gset Z))))
  | _ => False
  end.
Proof.
  destruct (@op_inodes_get_inumas_icpus cpu_host init_node_operator) as [[[inumas icpus]|e] o'] eqn:E.
  - apply (@cpu_then_memory cpu_host init_node_operator (String.concat "" CpuMethod.cpuinfo_2x2x2) inumas icpus o');
      [vm_compute; reflexivity | vm_decide | vm_compute; reflexivity | exact E].
  - vm_compute in E. discriminate.
Defined.

Lemma cpuinfo_unreadable_witness :
  @op_inodes_get_inumas_icpus strict_host init_node_operator =
  (Raise IOError, set_cpu_fields init_node_operator 0 0 ∅).
Proof. apply cpuinfo_unreadable. vm_compute. reflexivity. Defined.

End NodeOperator.
