(* ===== verification/PciDevice.v ===== *)
(** * The PCI device client: src/python-inventoryclient/.../v1/pci_device.py

    [PciDeviceManager] builds REST paths and delegates to the
    [_list] and [_update] methods of [inventoryclient.common.base.Manager],
    which is not part of the repository; the class [Manager] below states
    what the client uses of it.  [get] turns the [IndexError] of an empty
    answer into [None]; [get_pci_device_display_name] falls back to the
    last eight characters of the uuid. *)

From S2P Require Import Prelude PyStr.
From Stdlib Require Import Ascii String.

Module PciDevice.

(** The resource fields the client reads. *)
Record pci_device := mk_pci_device { name : option string; uuid : string }.

(** A JSON patch, as the client receives it. *)
Abbreviation patch := (list (string * string)).

(** [base.Manager._list], [base.Manager._update] and [json.dumps]. *)
Class Manager := {
  _list : string → option string → list pci_device;
  _update : string → string → pci_device;
  json_dumps : patch → string
}.

Section Client.
Context `{!Manager}.

(** [PciDeviceManager.list] (lines 22-24) *)
Definition list_host (host_id : string) : list pci_device :=
  _list ("/v1/hosts/" +:+ host_id +:+ "/pci_devices") (Some "pci_devices").

(** [PciDeviceManager.list_all] (lines 26-28) *)
Definition list_all : list pci_device := _list "/v1/pci_devices" (Some "pci_devices").

(** [PciDeviceManager.get] (lines 30-35): [self._list(path)[0]], and
    [None] on the [IndexError] of an empty list. *)
Definition get (pci_id : string) : option pci_device :=
  let r : res pci_device :=
    match _list ("/v1/pci_devices/" +:+ pci_id) None with
    | d :: _ => Ok d
    | [] => Raise IndexError
    end in
  match r with Ok d => Some d | Raise _ => None end.

(** [PciDeviceManager.update] (lines 37-40) *)
Definition update (pci_id : string) (p : patch) : pci_device :=
  _update ("/v1/pci_devices/" +:+ pci_id) (json_dumps p).

End Client.

(** [s[-n:]]: the whole string when it is at most [n] long. *)
Fixpoint str_take_last (n : nat) (s : string) : string :=
  match s with
  | EmptyString => EmptyString
  | String _ r => if (String.length s <=? n)%nat then s else str_take_last n r
  end.

(** [get_pci_device_display_name] (lines 43-47): [if p.name] is false for
    [None] and for the empty string. *)
Definition get_pci_device_display_name (p : pci_device) : string :=
  match name p with
  | Some n => if String.eqb n EmptyString then ("(" +:+ str_take_last 8 (uuid p) +:+ ")")%string else n
  | None => ("(" +:+ str_take_last 8 (uuid p) +:+ ")")%string
  end.

(** ** Properties *)

Lemma str_take_last_spec n s :
  (∃ pre, s = (pre +:+ str_take_last n s)%string) ∧
  String.length (str_take_last n s) = Nat.min n (String.length s).
Proof.
  induction s as [|c r IH]; [split; [by exists EmptyString | simpl; lia]|].
  assert (str_take_last n (String c r) =
          if (S (String.length r) <=? n)%nat then String c r else str_take_last n r)
    as -> by reflexivity.
  destruct (Nat.leb_spec (S (String.length r)) n).
  - split; [by exists EmptyString | simpl in *; lia].
  - destruct IH as [[pre Hpre] Hlen]. split; [|simpl; lia].
    exists (String c pre). rewrite str_app_cons. by f_equal.
Qed.

(** C20: without a name the display name is the last [min 8 n]
    characters of the [n]-character uuid in parentheses: a suffix of the
    uuid, and at most 10 characters long. *)
Theorem display_name_fallback p :
  (name p = None ∨ name p = Some EmptyString) →
  ∃ t, get_pci_device_display_name p = ("(" +:+ t +:+ ")")%string ∧
       (∃ pre, uuid p = (pre +:+ t)%string) ∧
       String.length t = Nat.min 8 (String.length (uuid p)).
Proof.
  intros Hn. exists (str_take_last 8 (uuid p)).
  destruct (str_take_last_spec 8 (uuid p)) as [Hs Hl].
  split; [|done]. unfold get_pci_device_display_name. by destruct Hn as [-> | ->].
Qed.

Example display_name_sample :
  get_pci_device_display_name (mk_pci_device None "3d1f5c6e-0a2b-4c6d-8e9f-0123456789ab") =
  "(456789ab)"%string.
Proof. reflexivity. Qed.

Lemma display_name_fallback_witness :
  ∃ t, get_pci_device_display_name (mk_pci_device (Some "") "0123456789abcdef") =
       ("(" +:+ t +:+ ")")%string ∧
       (∃ pre, "0123456789abcdef" = (pre +:+ t)%string) ∧
       String.length t = Nat.min 8 (String.length "0123456789abcdef").
Proof. apply (display_name_fallback (mk_pci_device (Some "") "0123456789abcdef")). by right. Defined.

End PciDevice.
